(** * PoliDrone/Estimation: the Kalman filter and particle filter notebooks

    A shallow embedding of the estimator code of
    [3.EKF/Kalman_Filter_Exercise/Kalman_Filter-Student.ipynb],
    [5.gps_denied_navigation/Sensor-Fusion-Solution.ipynb] and
    [5.gps_denied_navigation/Particle-Filter.ipynb].

    Conventions of the embedding.
    - Python floats are real numbers ([R]): arithmetic is exact, there is
      no rounding, overflow, underflow or NaN among the operands.  Only the
      quotient that [numpy] forms when it normalizes the weights carries the
      IEEE results of a division by zero ([npfloat]).
    - [np.random] is not a function: every definition that draws takes the
      variates it consumes as arguments (a uniform [p] in [0,1), a standard
      normal [z], an integer [r] drawn by [randint], or a tape of draws).
    - A Python exception is a value [Raise e] of the [result] type.
    - A [while] loop whose number of iterations is not bounded by its input
      runs on fuel; [None] means the fuel ran out before the loop ended. *)

From Stdlib Require Import String Reals Lra Lia ZArith List Bool FinFun RNsatz.
From Stdlib Require Floats.
Import ListNotations.

Local Open Scope R_scope.

(** ** Python exceptions and the error monad *)

Inductive exn : Type :=
| NameError (name : string)
| ZeroDivisionError
| TypeError.

Inductive result (A : Type) : Type :=
| Ok (a : A)
| Raise (e : exn).

Arguments Ok {A} a.
Arguments Raise {A} e.

Definition bind {A B : Type} (m : result A) (k : A -> result B) : result B :=
  match m with
  | Ok a => k a
  | Raise e => Raise e
  end.

Notation "x <- m ;; k" := (bind m (fun x => k))
  (at level 61, m at next level, right associativity).

(** ** Python and numpy primitives *)

Module Py.

(** [a / b] on Python numbers. *)
Definition div (a b : R) : result R :=
  if Req_dec_T b 0 then Raise ZeroDivisionError else Ok (a / b).

(** [int(x)]: truncation toward zero. *)
Definition int (x : R) : Z :=
  if Rle_dec 0 x then Int_part x else (- Int_part (- x))%Z.

(** [a % b] on floats: the remainder has the sign of [b]. *)
Definition mod_ (a b : R) : R := a - b * IZR (Int_part (a / b)).

End Py.

Module Np.

(** [np.radians(d)] *)
Definition radians (d : R) : R := d * (PI / 180).

(** [np.linalg.norm(np.array([x, y]) - np.array([c0, c1]))] *)
Definition linalg_norm (x y c0 c1 : R) : R :=
  sqrt ((x - c0) * (x - c0) + (y - c1) * (y - c1)).

(** [np.sum] of a one-dimensional array. *)
Definition sum (l : list R) : R := fold_right Rplus 0 l.

(** An IEEE double as far as the normalization needs it. *)
Inductive npfloat : Type :=
| finite (r : R)
| inf (negative : bool)
| nan.

(** [w / s] on float64 arrays, entry by entry: numpy warns and does not
    raise on a zero divisor. *)
Definition true_divide (w s : R) : npfloat :=
  if Req_dec_T s 0 then
    if Req_dec_T w 0 then nan
    else if Rlt_dec 0 w then inf false else inf true
  else finite (w / s).

(** [np.random.randint(low, high)] draws one of these, each as likely as
    the other. *)
Definition randint_outcomes (low high : Z) : list Z :=
  map (fun i => (low + Z.of_nat i)%Z) (seq 0 (Z.to_nat (high - low))).

End Np.

Module Stats.

(** [scipy.stats.norm.pdf(x, loc, scale)]:
    [exp(-y**2/2) / sqrt(2*pi) / scale] at [y = (x - loc) / scale]. *)
Definition norm_pdf (x loc scale : R) : R :=
  let y := (x - loc) / scale in
  exp (- (y * y) / 2) / sqrt (2 * PI) / scale.

End Stats.

(** ** The occupancy grid and [utils] *)

(** [grid] is a two-dimensional numpy array of 0 and 1, indexed
    [grid[row, column]]. *)
Record Grid : Type := {
  shape0 : Z;
  shape1 : Z;
  at_ : Z -> Z -> Z
}.

(** A cell of the [bresenham] walk: [(c[0], c[1])], column first. *)
Definition Cell : Type := (Z * Z)%type.

(** Modelled from the spec: [utils.inbounds(map, x, y)], the bounds
    predicate of the occupancy map provider; [utils.py] is imported by the
    notebooks and is not among the sources. *)
Definition inbounds (grid_map : Grid) (x y : Z) : bool :=
  ((0 <=? x) && (x <? shape1 grid_map) && (0 <=? y) && (y <? shape0 grid_map))%Z.

(** The obstacle test of [get_distance]: [grid_map[c[1], c[0]] == 1]. *)
Definition occupied (grid_map : Grid) (c : Cell) : bool :=
  (at_ grid_map (snd c) (fst c) =? 1)%Z.

(** Modelled from the spec: [utils.valid_location(map, x, y)], in bounds
    and not an obstacle cell; [utils.py] is not among the sources. *)
Definition valid_location (grid_map : Grid) (x y : Z) : bool :=
  inbounds grid_map x y && negb (occupied grid_map (x, y)).

(** ** The [bresenham] package

    The notebooks import [bresenham] from the PyPI package of that name;
    this is its generator, the list being what the generator yields. *)

Module Bresenham.

Fixpoint loop (x0 y0 xx xy yx yy dx dy : Z) (n : nat) (x y D : Z) : list Cell :=
  match n with
  | O => []
  | S n' =>
      let c := (x0 + x * xx + y * yx, y0 + x * xy + y * yy)%Z in
      let '(y1, D1) := if (0 <=? D)%Z then (y + 1, D - 2 * dx)%Z else (y, D) in
      c :: loop x0 y0 xx xy yx yy dx dy n' (x + 1)%Z y1 (D1 + 2 * dy)%Z
  end.

Definition bresenham (x0 y0 x1 y1 : Z) : list Cell :=
  let dx := (x1 - x0)%Z in
  let dy := (y1 - y0)%Z in
  let xsign := if (0 <? dx)%Z then 1%Z else (-1)%Z in
  let ysign := if (0 <? dy)%Z then 1%Z else (-1)%Z in
  let dx := Z.abs dx in
  let dy := Z.abs dy in
  let '(dx, dy, xx, xy, yx, yy) :=
    if (dy <? dx)%Z then (dx, dy, xsign, 0%Z, 0%Z, ysign)
    else (dy, dx, 0%Z, ysign, xsign, 0%Z) in
  let D := (2 * dy - dx)%Z in
  loop x0 y0 xx xy yx yy dx dy (Z.to_nat (dx + 1)) 0%Z 0%Z D.

End Bresenham.

(** ** The Lidar sensor *)

Record LidarSensor : Type := { max_range : R }.

(** A vehicle state [[x, y, theta]]. *)
Definition State : Type := (R * R * R)%type.

Module Lidar.

(** The three readings [measure] chooses from.  [r] is the integer that
    [np.random.randint(0, self._max_range+1)] drew, [z] the standard normal
    variate behind [np.random.normal(expected_dist)]. *)
Definition _random_measure (self : LidarSensor) (r : Z) : R := IZR r.

Definition _failure_measure (self : LidarSensor) : R := max_range self.

Definition _hit_measure (self : LidarSensor) (expected_dist z : R) : R :=
  expected_dist + 1 * z.

(** [measure]; [p] is the value of [np.random.rand()]. *)
Definition measure (self : LidarSensor) (expected_dist p z : R) (r : Z) : R :=
  if Rle_dec p 0.95 then _hit_measure self expected_dist z
  else if Rle_dec p 0.98 then _random_measure self r
  else _failure_measure self.

Definition lookup_prob (self : LidarSensor) (expected_dist measured_dist : R)
  : result R :=
  let norm_prob := 0.95 * Stats.norm_pdf measured_dist expected_dist 1 in
  q <- Py.div 1 (max_range self) ;;
  let random_prob := 0.03 * q in
  let failure_prob :=
    if Req_dec_T measured_dist (max_range self) then 0.02 else 0 in
  Ok (norm_prob + random_prob + failure_prob).

End Lidar.

(** ** Ray casting and importance weights (Sensor-Fusion, Particle-Filter) *)

(** The [for c in cells] loop of [get_distance]; [dist] and [loc] are the
    values the two locals hold when the loop is entered. *)
Fixpoint get_distance_loop (grid_map : Grid) (x y : R) (dist : R) (loc : R * R)
  (cells : list Cell) : R * (R * R) :=
  match cells with
  | [] => (dist, loc)
  | c :: rest =>
      if negb (inbounds grid_map (fst c) (snd c)) then (dist, loc)
      else if occupied grid_map c then
        (Np.linalg_norm x y (IZR (fst c)) (IZR (snd c)), (IZR (fst c), IZR (snd c)))
      else get_distance_loop grid_map x y dist loc rest
  end.

Definition get_distance (grid_map : Grid) (sensor : LidarSensor) (x y angle : R)
  : R * (R * R) :=
  let x2 := x + max_range sensor * cos angle in
  let y2 := y + max_range sensor * sin angle in
  let cells := Bresenham.bresenham (Py.int x) (Py.int y) (Py.int x2) (Py.int y2) in
  let dist := max_range sensor in
  let loc := (x2, y2) in
  get_distance_loop grid_map x y dist loc cells.

(** The angle of ray number [bearing] out of [k]. *)
Definition ray_angle (theta : R) (k bearing : nat) : R :=
  let bearing := INR bearing * (360 / INR k) in
  Py.mod_ (theta + Np.radians bearing) (2 * PI).

Definition shoot_rays (grid_map : Grid) (sensor : LidarSensor) (state : State)
  (k : nat) : list R :=
  let '(x, y, theta) := state in
  map (fun bearing => fst (get_distance grid_map sensor x y (ray_angle theta k bearing)))
      (seq 0 k).

(** The [for (ed, md) in zip(...)] loop of [importance]. *)
Fixpoint importance_loop (sensor : LidarSensor) (weight : R)
  (pairs : list (R * R)) : result R :=
  match pairs with
  | [] => Ok weight
  | (ed, md) :: rest =>
      p <- Lidar.lookup_prob sensor ed md ;;
      importance_loop sensor (weight * p) rest
  end.

Definition importance (grid_map : Grid) (sensor : LidarSensor) (state : State)
  (measured_distances : list R) : result R :=
  let expected_distances :=
    shoot_rays grid_map sensor state (length measured_distances) in
  importance_loop sensor 1 (combine expected_distances measured_distances).

(** The [for s in samples] loop of [sensor_fusion]: the weights before they
    are normalized. *)
Fixpoint importance_weights (grid_map : Grid) (sensor : LidarSensor)
  (samples : list State) (measured_distances : list R) : result (list R) :=
  match samples with
  | [] => Ok []
  | s :: rest =>
      weight <- importance grid_map sensor s measured_distances ;;
      weights <- importance_weights grid_map sensor rest measured_distances ;;
      Ok (weight :: weights)
  end.

(** [np.array(weights)] is an array of integers when every weight is the
    [int] 1 that [importance] starts from, that is when there are samples
    and no measured distance; [weights /= ...] on such an array raises
    numpy's [TypeError] (the quotient is a float).  In every other case the
    array holds floats (it is the empty float array when there is no
    sample). *)
Definition integer_weights (samples : list State) (measured_distances : list R)
  : bool :=
  match samples, measured_distances with
  | _ :: _, [] => true
  | _, _ => false
  end.

Definition sensor_fusion (grid_map : Grid) (sensor : LidarSensor)
  (samples : list State) (measured_distances : list R)
  : result (list Np.npfloat) :=
  weights <- importance_weights grid_map sensor samples measured_distances ;;
  if integer_weights samples measured_distances then Raise TypeError
  else Ok (map (fun w => Np.true_divide w (Np.sum weights)) weights).

(** [sense]: one simulated reading per ray; [draws] holds the variates of
    the successive calls of [sensor.measure]. *)
Definition sense (grid : Grid) (sensor : LidarSensor) (ground_truth_state : State)
  (rays : nat) (draws : list (R * R * Z)) : list R :=
  let dists := shoot_rays grid sensor ground_truth_state rays in
  map (fun dv : R * (R * R * Z) =>
         let '(d, (p, z, r)) := dv in Lidar.measure sensor d p z r)
      (combine dists draws).

(** ** Particle-Filter: prior sampling, motion model, filter loop *)

(** The variates one pass of the [while] loop of [sample_from_prior]
    consumes: two values of [random_sample()] in [0,1) behind the two
    [np.random.uniform] calls, and the variate behind [theta] (uniform in
    [0,1) when no state is given, standard normal otherwise). *)
Record PriorDraw : Type := {
  u_x : R;
  u_y : R;
  v_theta : R
}.

(** [np.random.uniform(low, high)] and [np.random.normal(loc, scale)] as
    numpy computes them from the variate. *)
Definition uniform (low high u : R) : R := low + (high - low) * u.
Definition normal (loc scale z : R) : R := loc + scale * z.

(** The sample [s = [x, y, theta]] that pass draws.  The extents are those
    of the notebook's global [grid], not of the argument [grid_map]. *)
Definition prior_candidate (grid : Grid) (state : option State) (d : PriorDraw)
  : State :=
  let x := uniform 0 (IZR (shape1 grid)) (u_x d) in
  let y := uniform 0 (IZR (shape0 grid)) (u_y d) in
  let theta :=
    match state with
    | None => uniform (- PI) PI (v_theta d)
    | Some st => normal (snd st) (Np.radians 0.5) (v_theta d)
    end in
  (x, y, theta).

(** The test [valid_location(grid_map, int(x), int(y))] on a sample. *)
Definition accepted (grid_map : Grid) (s : State) : bool :=
  valid_location grid_map (Py.int (fst (fst s))) (Py.int (snd (fst s))).

(** The [while len(samples) < N] loop: [i] is the number of passes made so
    far, [tape i] the variates of the next one.  [None]: the loop is still
    running when the fuel is spent; the function has no [raise]. *)
Fixpoint sample_from_prior_loop (grid grid_map : Grid) (N : Z)
  (state : option State) (tape : nat -> PriorDraw) (fuel i : nat)
  (samples : list State) : option (result (list State)) :=
  match fuel with
  | O => None
  | S fuel' =>
      if (Z.of_nat (length samples) <? N)%Z then
        let s := prior_candidate grid state (tape i) in
        if accepted grid_map s then
          sample_from_prior_loop grid grid_map N state tape fuel' (S i) (samples ++ [s])
        else
          sample_from_prior_loop grid grid_map N state tape fuel' (S i) samples
      else Some (Ok samples)
  end.

Definition sample_from_prior (grid grid_map : Grid) (N : Z)
  (state : option State) (tape : nat -> PriorDraw) (fuel : nat)
  : option (result (list State)) :=
  sample_from_prior_loop grid grid_map N state tape fuel 0 [].

(** [simulate(state, angle, v, dt)]; [z0], [z1], [z2] are the standard
    normal variates of the three noise draws. *)
Definition simulate (state : State) (angle v dt : R) (z0 z1 z2 : R) : State :=
  let '(x, y, theta) := state in
  let w := (normal 0 1 z0, normal 0 1 z1, normal 0 0.015 z2) in
  let x_new := x + v * cos theta * dt + fst (fst w) in
  let y_new := y + v * sin theta * dt + snd (fst w) in
  let theta_new := theta + v * tan angle * dt + snd w in
  (x_new, y_new, theta_new).

(** [simulate(state)] with the defaults [angle=np.radians(0), v=5, dt=1]. *)
Definition simulate_default (state : State) (z : R * R * R) : State :=
  simulate state (Np.radians 0) 5 1 (fst (fst z)) (snd (fst z)) (snd z).

(** [particle_filter] as the notebook has it: the two [np.copy] calls and
    the [return]; the body between them is a comment. *)
Definition particle_filter (grid : Grid) (sensor : LidarSensor)
  (ground_truth_state : State) (samples : list State) (n_timesteps rays : nat)
  : list State * State :=
  let samples := samples in
  let ground_truth_state := ground_truth_state in
  (samples, ground_truth_state).

(** The spec's words for the ground truth of [particle_filter]: it is
    propagated with the motion model once per time step; [noise t] holds the
    variates of step [t]. *)
Fixpoint spec_ground_truth (ground_truth_state : State) (noise : nat -> R * R * R)
  (t n_timesteps : nat) : State :=
  match n_timesteps with
  | O => ground_truth_state
  | S n => spec_ground_truth (simulate_default ground_truth_state (noise t)) noise (S t) n
  end.

(** ** Kalman_Filter-Student: the class [KF] *)

(** A two-dimensional numpy array, row by row; the one-dimensional
    [np.array([0.0])] of [__init__] is the single row [[0.0]]. *)
Definition ndarray : Type := list (list R).

Module Mat.

Definition dot (u v : list R) : R :=
  fold_right Rplus 0 (map (fun p => fst p * snd p) (combine u v)).

Definition ncols (m : ndarray) : nat := length (hd [] m).

Definition col (j : nat) (m : ndarray) : list R := map (fun row => nth j row 0) m.

Definition transpose (m : ndarray) : ndarray :=
  map (fun j => col j m) (seq 0 (ncols m)).

(** [np.matmul(a, b)] on arrays of matching shapes. *)
Definition matmul (a b : ndarray) : ndarray :=
  map (fun row => map (fun j => dot row (col j b)) (seq 0 (ncols b))) a.

Definition zip_with (f : R -> R -> R) (a b : ndarray) : ndarray :=
  map (fun rs => map (fun p => f (fst p) (snd p)) (combine (fst rs) (snd rs)))
      (combine a b).

Definition add : ndarray -> ndarray -> ndarray := zip_with Rplus.
Definition sub : ndarray -> ndarray -> ndarray := zip_with Rminus.

Definition identity (n : nat) : ndarray :=
  map (fun i => map (fun j => if Nat.eqb i j then 1 else 0) (seq 0 n)) (seq 0 n).

End Mat.

Record KF : Type := {
  r_t : ndarray;
  q_t : ndarray;
  dt : R;
  mu : ndarray;
  sigma : ndarray;
  mu_bar : ndarray;
  sigma_bar : ndarray
}.

(** The module namespace of the notebook, as far as it binds arrays: a name
    that a method reads and does not assign is looked up here. *)
Definition Namespace : Type := string -> option ndarray.

Definition load_global (globals : Namespace) (name : string) : result ndarray :=
  match globals name with
  | Some v => Ok v
  | None => Raise (NameError name)
  end.

Module Kalman.

(** [KF.__init__] *)
Definition init (sensor_sigma velocity_sigma position_sigma dt : R) : KF :=
  {| r_t := [[sensor_sigma ^ 2]];
     q_t := [[velocity_sigma ^ 2; 0]; [0; position_sigma ^ 2]];
     dt := dt;
     mu := [[0]];
     sigma := [[0]];
     mu_bar := [[0]];
     sigma_bar := [[0]] |}.

Definition a (self : KF) : ndarray := [[1; 0]; [dt self; 1]].

Definition b (self : KF) : ndarray := [[dt self]; [0]].

Definition initial_values (self : KF) (mu_0 sigma_0 : ndarray) : KF :=
  {| r_t := r_t self; q_t := q_t self; dt := dt self;
     mu := mu_0; sigma := sigma_0;
     mu_bar := mu_bar self; sigma_bar := sigma_bar self |}.

Definition set_mu_bar (self : KF) (v : ndarray) : KF :=
  {| r_t := r_t self; q_t := q_t self; dt := dt self;
     mu := mu self; sigma := sigma self;
     mu_bar := v; sigma_bar := sigma_bar self |}.

Definition set_sigma_bar (self : KF) (v : ndarray) : KF :=
  {| r_t := r_t self; q_t := q_t self; dt := dt self;
     mu := mu self; sigma := sigma self;
     mu_bar := mu_bar self; sigma_bar := v |}.

Definition set_mu (self : KF) (v : ndarray) : KF :=
  {| r_t := r_t self; q_t := q_t self; dt := dt self;
     mu := v; sigma := sigma self;
     mu_bar := mu_bar self; sigma_bar := sigma_bar self |}.

Definition set_sigma (self : KF) (v : ndarray) : KF :=
  {| r_t := r_t self; q_t := q_t self; dt := dt self;
     mu := mu self; sigma := v;
     mu_bar := mu_bar self; sigma_bar := sigma_bar self |}.

(** [predict(self, u)] as the notebook has it.  The assignments to
    [mu_bar] and [sigma_bar] are comments, so the two names are globals of
    the notebook.  The object comes back with whatever was stored before an
    exception. *)
Definition predict (self : KF) (u : ndarray) (globals : Namespace)
  : KF * result (ndarray * ndarray) :=
  match load_global globals "mu_bar" with
  | Raise e => (self, Raise e)
  | Ok mu_bar =>
      let self := set_mu_bar self mu_bar in
      match load_global globals "sigma_bar" with
      | Raise e => (self, Raise e)
      | Ok sigma_bar =>
          let self := set_sigma_bar self sigma_bar in
          (self, Ok (mu_bar, sigma_bar))
      end
  end.

Definition h_prime (self : KF) : ndarray := [[0; 1]].

Definition h (self : KF) (mu : ndarray) : ndarray := Mat.matmul [[0; 1]] mu.

(** [update(self, z)] as the notebook has it: [mu] and [sigma] are read
    from the notebook's globals too. *)
Definition update (self : KF) (z : ndarray) (globals : Namespace)
  : KF * result (ndarray * ndarray) :=
  match load_global globals "mu" with
  | Raise e => (self, Raise e)
  | Ok mu =>
      let self := set_mu self mu in
      match load_global globals "sigma" with
      | Raise e => (self, Raise e)
      | Ok sigma =>
          let self := set_sigma self sigma in
          (self, Ok (mu, sigma))
      end
  end.

(** The spec's words for [predict]: [mean' = A mean + B u] and
    [covariance' = A covariance A^T + Q], for a scalar control input. *)
Definition spec_predict (self : KF) (u : R) : ndarray * ndarray :=
  let mean' := Mat.add (Mat.matmul (a self) (mu self)) (Mat.matmul (b self) [[u]]) in
  let covariance' :=
    Mat.add (Mat.matmul (Mat.matmul (a self) (sigma self)) (Mat.transpose (a self)))
            (q_t self) in
  (mean', covariance').

(** The spec's words for [update]: [S = H cov_bar H^T + R],
    [K = cov_bar H^T S^-1], [mean = mean_bar + K (z - H mean_bar)],
    [covariance = (I - K H) cov_bar]; [None] when [S] is singular. *)
Definition spec_update (self : KF) (z : ndarray) : option (ndarray * ndarray) :=
  let H := h_prime self in
  let S := Mat.add (Mat.matmul (Mat.matmul H (sigma_bar self)) (Mat.transpose H))
                   (r_t self) in
  let s := nth 0 (nth 0 S []) 0 in
  if Req_dec_T s 0 then None
  else
    let K := Mat.matmul (Mat.matmul (sigma_bar self) (Mat.transpose H)) [[/ s]] in
    let mean := Mat.add (mu_bar self) (Mat.matmul K (Mat.sub z (h self (mu_bar self)))) in
    let covariance :=
      Mat.matmul (Mat.sub (Mat.identity 2) (Mat.matmul K H)) (sigma_bar self) in
    Some (mean, covariance).

(** The cells of the notebook before the first call of [predict]. *)
Definition mu_0 : ndarray := [[1]; [0]].
Definition sigma_0 : ndarray := [[0.1 ^ 2; 0]; [0; 0.1 ^ 2]].
Definition u_0 : ndarray := [[0]; [0]].
Definition MYKF : KF := initial_values (init 0.1 0.1 0.1 1) mu_0 sigma_0.

Definition notebook_globals : Namespace :=
  fun name =>
    if String.eqb name "mu_0" then Some mu_0
    else if String.eqb name "sigma_0" then Some sigma_0
    else if String.eqb name "u" then Some u_0
    else None.

End Kalman.

(** ** Spec-side notions used by the statements *)

(** The spec's Gaussian pdf of [x] with mean [mean] and standard deviation
    [std]. *)
Definition gaussian_pdf (x mean std : R) : R :=
  / (std * sqrt (2 * PI)) * exp (- ((x - mean) ^ 2) / (2 * std ^ 2)).

(** The value of the three-term mixture [lookup_prob] returns when the
    division succeeds. *)
Definition mixture_value (self : LidarSensor) (expected_dist measured_dist : R) : R :=
  0.95 * gaussian_pdf measured_dist expected_dist 1
  + 0.03 * (1 / max_range self)
  + (if Req_dec_T measured_dist (max_range self) then 0.02 else 0).

(** The product of [f 0 .. f (k-1)]. *)
Fixpoint prod_upto (f : nat -> R) (k : nat) : R :=
  match k with
  | O => 1
  | S k' => prod_upto f k' * f k'
  end.

(** A cell the walk passes without ending: inside the map and free. *)
Definition passable (grid_map : Grid) (c : Cell) : Prop :=
  inbounds grid_map (fst c) (snd c) = true /\ occupied grid_map c = false.

(** The number of accepted candidates among passes [i .. i+n-1] of the
    prior sampling loop. *)
Definition accepted_passes (grid grid_map : Grid) (state : option State)
  (tape : nat -> PriorDraw) (i n : nat) : nat :=
  length (filter (fun j => accepted grid_map (prior_candidate grid state (tape j)))
                 (seq i n)).

(** The probability that a draw among equally likely [outcomes] is [v]. *)
Definition outcome_mass (outcomes : list Z) (v : Z) : R :=
  INR (count_occ Z.eq_dec outcomes v) / INR (length outcomes).

(** What [lookup_prob] adds for a random return, whatever the reading. *)
Definition random_term (self : LidarSensor) : R := 0.03 * (1 / max_range self).

(** The spec's words for the random component, were [lookup_prob] the
    exact likelihood of [measure]: for a sensor of integer range [n], what
    [lookup_prob] adds for a random return is 0.03 times the probability
    with which [_random_measure] returns that reading. *)
Definition exact_random_likelihood (self : LidarSensor) (n : Z) : Prop :=
  forall r, In r (Np.randint_outcomes 0 (n + 1)) ->
    random_term self = 0.03 * outcome_mass (Np.randint_outcomes 0 (n + 1)) r.

(** The probability that [_random_measure] returns a reading of at most
    [k], for a sensor of integer range [n]. *)
Definition random_return_cdf (n k : Z) : R :=
  INR (length (filter (fun r => (r <=? k)%Z) (Np.randint_outcomes 0 (n + 1))))
  / INR (length (Np.randint_outcomes 0 (n + 1))).

(** The probability of a reading in [[0, t]] under the uniform density
    [1 / max_range] over [[0, max_range]] that [lookup_prob] uses. *)
Definition uniform_density_cdf (self : LidarSensor) (t : R) : R :=
  1 / max_range self * t.

(** The spec's words again, on events: under an exact likelihood the two
    give every event "the random reading is at most [k]" the same
    probability. *)
Definition exact_random_cdf (self : LidarSensor) (n : Z) : Prop :=
  forall k, (0 <= k <= n)%Z ->
    uniform_density_cdf self (IZR k) = random_return_cdf n k.

(** The scenario of a predict step followed at once by an update step whose
    observation is [h(mu_bar)], the observation the prediction expects. *)
Definition predict_then_update (self : KF) (u : ndarray) (globals : Namespace)
  : KF * result (ndarray * ndarray) :=
  let '(self, predicted) := Kalman.predict self u globals in
  match predicted with
  | Raise e => (self, Raise e)
  | Ok _ => Kalman.update self (Kalman.h self (mu_bar self)) globals
  end.

(** ** Inputs of the notebooks and of the examples *)

(** [sensor = LidarSensor(max_sensor_range)] with [max_sensor_range = 100]. *)
Definition lidar_100 : LidarSensor := {| max_range := 100 |}.

(** [init_ground_truth_state = [385, 450, np.radians(45)]] *)
Definition init_ground_truth_state : State := (385, 450, Np.radians 45).


(** A map of 1000 by 1000 cells, free but for the cell of column 435 and
    row 500. *)
Definition one_obstacle_grid : Grid :=
  {| shape0 := 1000; shape1 := 1000;
     at_ := fun row column =>
              if ((row =? 500) && (column =? 435))%Z then 1%Z else 0%Z |}.

(** A map of one cell, which is an obstacle: no cell is free. *)
Definition full_grid : Grid :=
  {| shape0 := 1; shape1 := 1; at_ := fun _ _ => 1%Z |}.

(** A map of one row and two columns: the cell of column 0 is free, the cell
    of column 1 is an obstacle. *)
Definition half_grid : Grid :=
  {| shape0 := 1; shape1 := 2;
     at_ := fun _ column => if (column =? 1)%Z then 1%Z else 0%Z |}.

(** Tapes of draws for [sample_from_prior]: every pass draws the same
    variates. *)
Definition constant_tape (ux uy : R) : nat -> PriorDraw :=
  fun _ => {| u_x := ux; u_y := uy; v_theta := 0 |}.

(** A namespace in which earlier cells have bound all four names the two
    methods read. *)
Definition bound_globals : Namespace :=
  fun name =>
    if String.eqb name "mu_bar" then Some [[1]; [1]]
    else if String.eqb name "sigma_bar" then Some [[0.02; 0.01]; [0.01; 0.03]]
    else if String.eqb name "mu" then Some [[0]; [0]]
    else if String.eqb name "sigma" then Some [[0.01; 0]; [0; 0.01]]
    else None.

(** ** The IMU of the noisy-measurement notebook: exponential averaging *)

Module AltitudeIMU.

Record IMU : Type := {
  z_hat : R;
  alpha : R
}.

(** [IMU.__init__(z_hat, alpha)] *)
Definition init (z_hat alpha : R) : IMU := {| z_hat := z_hat; alpha := alpha |}.

(** [measure(z, sigma)]; [n] is the standard normal variate behind
    [np.random.normal(0.0, sigma)]. *)
Definition measure (self : IMU) (z sigma n : R) : R := z + normal 0 sigma n.

(** [estimate(z_t)]: stores the new estimate and returns it. *)
Definition estimate (self : IMU) (z_t : R) : IMU * R :=
  let z_hat' := (1 - alpha self) * z_t + alpha self * z_hat self in
  ({| z_hat := z_hat'; alpha := alpha self |}, z_hat').

(** The object after [estimate] has been called on each measurement of
    [zs] in turn. *)
Fixpoint estimate_each (self : IMU) (zs : list R) : IMU :=
  match zs with
  | [] => self
  | z_t :: rest => estimate_each (fst (estimate self z_t)) rest
  end.

End AltitudeIMU.

(** ** The IMU of the calibration notebook *)

Module Calibration.

Record IMU : Type := {
  sigma_a : R;
  g : ndarray
}.

(** [IMU.__init__(sigma_a)]: [self.g = 9.81 * np.array([[0], [0], [-1]])]. *)
Definition init (sigma_a : R) : IMU :=
  {| sigma_a := sigma_a;
     g := map (map (Rmult 9.81)) [[0]; [0]; [-1]] |}.


Definition scaling_cross_coupling_matrix (self : IMU) : ndarray :=
  [[0.0; 0.001; 0.001];
   [0.001; 0.0; 0.001];
   [0.001; 0.001; 0.0]].



(** [accelerometer_measurement] as the notebook has it: the measured
    acceleration is left at [None]. *)
Definition accelerometer_measurement (self : IMU) (actual_a : R * R * R)
  (phi theta : R) (noise : R * R * R) : option ndarray :=
  None.

End Calibration.

(** ** Notions used by the further statements *)


(** A grid with the shape and the in-bounds cells of [one_obstacle_grid]
    and obstacles everywhere outside. *)
Definition walled_grid : Grid :=
  {| shape0 := 1000; shape1 := 1000;
     at_ := fun row column =>
              if inbounds one_obstacle_grid column row
              then at_ one_obstacle_grid row column else 1%Z |}.

(** A map of 1000 by 1000 free cells. *)
Definition open_grid : Grid :=
  {| shape0 := 1000; shape1 := 1000; at_ := fun _ _ => 0%Z |}.

(** A tape whose passes alternate between the obstacle column and the free
    column of [half_grid]. *)
Definition alternating_tape : nat -> PriorDraw :=
  fun i => if Nat.even i then {| u_x := 0.75; u_y := 0.25; v_theta := 0 |}
           else {| u_x := 0.25; u_y := 0.25; v_theta := 0 |}.

(** ** The weights on float64 values

    The arithmetic of [lookup_prob], [importance] and [sensor_fusion] on
    IEEE binary64 values, for a sensor whose range is not zero and at least
    one measured distance.  What [stats.norm.pdf] returned is an input, as
    the variates of [np.random] are: it is 0.0 as soon as the expected and the
    measured distance differ by 39 or more, [exp(-y**2/2)] being then below
    the least subnormal number. *)

Module F64.

Import PrimFloat.

(** [lookup_prob]; [norm_pdf] is the value of
    [stats.norm.pdf(measured_dist, loc=expected_dist)]. *)
#[warnings="-inexact-float"]
Definition lookup_prob (max_range norm_pdf measured_dist : float) : float :=
  let norm_prob := (0.95 * norm_pdf)%float in
  let random_prob := (0.03 * (1 / max_range))%float in
  let failure_prob := if (measured_dist =? max_range)%float then 0.02%float else 0%float in
  (norm_prob + random_prob + failure_prob)%float.

(** The loop of [importance]: [weight = 1], then [weight *= lookup_prob(...)]
    for each ray; [norm_pdfs] holds the pdf values of the particle's rays. *)
Definition importance (max_range : float) (norm_pdfs measured_distances : list float)
  : float :=
  fold_left (fun weight r => (weight * lookup_prob max_range (fst r) (snd r))%float)
            (combine norm_pdfs measured_distances) 1%float.

(** [np.sum] of an array of fewer than eight entries (longer arrays are
    added in blocks). *)
Definition sum (weights : list float) : float :=
  fold_left (fun acc w => (acc + w)%float) weights 0%float.

(** [sensor_fusion]; [norm_pdfs] holds, for each particle, the pdf values
    of its rays. *)
Definition sensor_fusion (max_range : float) (norm_pdfs : list (list float))
  (measured_distances : list float) : list float :=
  let weights := map (fun pdfs => importance max_range pdfs measured_distances) norm_pdfs in
  map (fun w => (w / sum weights)%float) weights.

(** The inputs of the underflow example: a range of 100, 100 rays measured
    at 5 each, and the pdf values of a particle that expects 100 on each
    ray. *)
(** [IMU.estimate(z_t)] of the noisy-measurement notebook, on floats. *)
Definition estimate (z_hat alpha z_t : float) : float :=
  ((1 - alpha) * z_t + alpha * z_hat)%float.

#[warnings="-inexact-float"]
Definition tenth : float := 0.1%float.

#[warnings="-inexact-float"]
Definition fifth : float := 0.2%float.


End F64.

(** ** Ray casting over the float operations

    Rounding decides which cells a ray walks: the endpoint of the walk is
    truncated to a cell, and the float cosine of a bearing of 270 degrees is
    not 0.  So here the float64 operations of [get_distance], [shoot_rays]
    and [IMU.estimate] are parameters: [fl_pi] is [np.pi], [fl_cos] and
    [fl_sin] are [np.cos] and [np.sin], [fl_add], [fl_sub], [fl_mul] and
    [fl_div] the rounded arithmetic, [fl_mod] the operator [%], and
    [fl_norm x y c0 c1] is
    [np.linalg.norm(np.array([x, y]) - np.array([c0, c1]))].  What is proved
    for every [FloatOps] holds of the operations the program runs on (for
    finite values) and of the exact ones, [exact_ops]. *)

Record FloatOps : Type := {
  fl_pi : R;
  fl_cos : R -> R;
  fl_sin : R -> R;
  fl_add : R -> R -> R;
  fl_sub : R -> R -> R;
  fl_mul : R -> R -> R;
  fl_div : R -> R -> R;
  fl_mod : R -> R -> R;
  fl_norm : R -> R -> R -> R -> R
}.

Definition exact_ops : FloatOps :=
  {| fl_pi := PI;
     fl_cos := cos;
     fl_sin := sin;
     fl_add := Rplus;
     fl_sub := Rminus;
     fl_mul := Rmult;
     fl_div := Rdiv;
     fl_mod := Py.mod_;
     fl_norm := Np.linalg_norm |}.


Module Fl.

Section Ops.

Variable ops : FloatOps.

(** [np.radians(d)]: [d * (np.pi / 180)]. *)
Definition radians (d : R) : R := fl_mul ops d (fl_div ops (fl_pi ops) 180).

(** The [for c in cells] loop of [get_distance]. *)
Fixpoint get_distance_loop (grid_map : Grid) (x y : R) (dist : R) (loc : R * R)
  (cells : list Cell) : R * (R * R) :=
  match cells with
  | [] => (dist, loc)
  | c :: rest =>
      if negb (inbounds grid_map (fst c) (snd c)) then (dist, loc)
      else if occupied grid_map c then
        (fl_norm ops x y (IZR (fst c)) (IZR (snd c)), (IZR (fst c), IZR (snd c)))
      else get_distance_loop grid_map x y dist loc rest
  end.

Definition get_distance (grid_map : Grid) (sensor : LidarSensor) (x y angle : R)
  : R * (R * R) :=
  let x2 := fl_add ops x (fl_mul ops (max_range sensor) (fl_cos ops angle)) in
  let y2 := fl_add ops y (fl_mul ops (max_range sensor) (fl_sin ops angle)) in
  let cells := Bresenham.bresenham (Py.int x) (Py.int y) (Py.int x2) (Py.int y2) in
  let dist := max_range sensor in
  let loc := (x2, y2) in
  get_distance_loop grid_map x y dist loc cells.

(** The angle of ray number [bearing] out of [k]:
    [(theta + np.radians(bearing * (360 / k))) % (2 * np.pi)]. *)
Definition ray_angle (theta : R) (k bearing : nat) : R :=
  let bearing := fl_mul ops (INR bearing) (fl_div ops 360 (INR k)) in
  fl_mod ops (fl_add ops theta (radians bearing)) (fl_mul ops 2 (fl_pi ops)).

Definition shoot_rays (grid_map : Grid) (sensor : LidarSensor) (state : State)
  (k : nat) : list R :=
  let '(x, y, theta) := state in
  map (fun bearing => fst (get_distance grid_map sensor x y (ray_angle theta k bearing)))
      (seq 0 k).

(** [IMU.estimate(z_t)] of the noisy-measurement notebook:
    [(1 - self.alpha) * z_t + self.alpha * self.z_hat]. *)
Definition estimate (self : AltitudeIMU.IMU) (z_t : R) : AltitudeIMU.IMU * R :=
  let z_hat' :=
    fl_add ops (fl_mul ops (fl_sub ops 1 (AltitudeIMU.alpha self)) z_t)
               (fl_mul ops (AltitudeIMU.alpha self) (AltitudeIMU.z_hat self)) in
  (AltitudeIMU.init z_hat' (AltitudeIMU.alpha self), z_hat').

End Ops.

End Fl.

(** * Properties *)

(** ** Numeric facts *)

Lemma sqrt_2PI_pos : 0 < sqrt (2 * PI).
Proof. apply sqrt_lt_R0. pose proof PI_RGT_0. lra. Qed.

Lemma norm_pdf_gaussian (x loc : R) :
  Stats.norm_pdf x loc 1 = gaussian_pdf x loc 1.
Proof.
  pose proof sqrt_2PI_pos as Hs.
  unfold Stats.norm_pdf, gaussian_pdf.
  replace (- ((x - loc) / 1 * ((x - loc) / 1)) / 2)
    with (- (x - loc) ^ 2 / (2 * 1 ^ 2)) by field.
  field. lra.
Qed.

Lemma gaussian_pdf_pos (x mean : R) : 0 < gaussian_pdf x mean 1.
Proof.
  unfold gaussian_pdf.
  apply Rmult_lt_0_compat.
  - apply Rinv_0_lt_compat. pose proof sqrt_2PI_pos. lra.
  - apply exp_pos.
Qed.

Lemma mixture_value_lower (self : LidarSensor) (e m : R) :
  0 < max_range self ->
  0 < 0.03 * (1 / max_range self) <= mixture_value self e m.
Proof.
  intros Hr.
  assert (Hq : 0 < 1 / max_range self).
  { unfold Rdiv. rewrite Rmult_1_l. now apply Rinv_0_lt_compat. }
  pose proof (gaussian_pdf_pos m e) as Hg.
  unfold mixture_value.
  destruct (Req_dec_T m (max_range self)); lra.
Qed.

(** ** [lookup_prob] *)

Lemma lookup_prob_ok (self : LidarSensor) (e m : R) :
  max_range self <> 0 ->
  Lidar.lookup_prob self e m = Ok (mixture_value self e m).
Proof.
  intros Hr.
  unfold Lidar.lookup_prob, Py.div, mixture_value.
  destruct (Req_dec_T (max_range self) 0) as [E | _]; [contradiction |].
  cbn [bind]. now rewrite norm_pdf_gaussian.
Qed.


(** C3. For a sensor whose [max_range] is not zero and all expected and
    measured distances [e] and [m], [lookup_prob(e, m)] is
    0.95 times the Gaussian pdf of [m] with mean [e] and standard deviation 1,
    plus 0.03 times [1 / max_range], plus 0.02 when [m] is exactly
    [max_range] and 0 otherwise. *)
Theorem lookup_prob_mixture (self : LidarSensor) (e m : R) :
  max_range self <> 0 ->
  Lidar.lookup_prob self e m =
  Ok (0.95 * gaussian_pdf m e 1
      + 0.03 * (1 / max_range self)
      + (if Req_dec_T m (max_range self) then 0.02 else 0)).
Proof.
  intros Hr. now rewrite lookup_prob_ok.
Qed.

Lemma lookup_prob_mixture_witness :
  100 <> 0 /\
  Lidar.lookup_prob lidar_100 70 100 =
  Ok (0.95 * gaussian_pdf 100 70 1 + 0.03 * (1 / 100)
      + (if Req_dec_T 100 100 then 0.02 else 0)).
Proof.
  split; [lra |].
  apply (lookup_prob_mixture lidar_100 70 100).
  simpl. lra.
Defined.

(** ** [importance] *)

Lemma shoot_rays_length (g : Grid) (s : LidarSensor) (st : State) (k : nat) :
  length (shoot_rays g s st k) = k.
Proof.
  destruct st as [[x y] theta]. unfold shoot_rays.
  now rewrite length_map, length_seq.
Qed.

Lemma prod_upto_shift (f : nat -> R) (k : nat) :
  prod_upto f (S k) = f 0%nat * prod_upto (fun i => f (S i)) k.
Proof.
  induction k as [| k IH].
  - simpl. lra.
  - change (prod_upto f (S (S k))) with (prod_upto f (S k) * f (S k)).
    rewrite IH. simpl. lra.
Qed.

Lemma importance_loop_ok (s : LidarSensor) :
  max_range s <> 0 ->
  forall (expected measured : list R) (weight : R),
    length expected = length measured ->
    importance_loop s weight (combine expected measured) =
    Ok (weight * prod_upto
                   (fun i => mixture_value s (nth i expected 0) (nth i measured 0))
                   (length measured)).
Proof.
  intros Hr expected.
  induction expected as [| ed expected IH]; intros [| md measured] weight Hlen;
    try discriminate.
  - simpl. f_equal. lra.
  - cbn [combine importance_loop].
    rewrite lookup_prob_ok by assumption. cbn [bind].
    rewrite IH by (simpl in Hlen; lia).
    cbn [length]. rewrite prod_upto_shift. cbn [nth]. f_equal. lra.
Qed.

(** C7. For every state and every list of [k] measured distances (the
    sensor's [max_range] not being zero), [importance] is the product over
    the ray indices [i < k] of [lookup_prob(expected_i, measured_i)], the
    expected distances being those [shoot_rays] gives from that state with
    [k] rays. *)
Theorem importance_is_product (g : Grid) (s : LidarSensor) (st : State)
  (measured : list R) :
  max_range s <> 0 ->
  let k := length measured in
  let expected := shoot_rays g s st k in
  length expected = k /\
  exists p : nat -> R,
    (forall i, (i < k)%nat ->
       Lidar.lookup_prob s (nth i expected 0) (nth i measured 0) = Ok (p i)) /\
    importance g s st measured = Ok (prod_upto p k).
Proof.
  intros Hr k expected.
  assert (Hlen : length expected = k) by apply shoot_rays_length.
  split; [exact Hlen |].
  exists (fun i => mixture_value s (nth i expected 0) (nth i measured 0)).
  split.
  - intros i _. now apply lookup_prob_ok.
  - unfold importance. fold k. fold expected.
    rewrite importance_loop_ok by assumption.
    f_equal. fold k. lra.
Qed.

Lemma importance_is_product_witness :
  100 <> 0 /\
  length (shoot_rays one_obstacle_grid lidar_100 init_ground_truth_state 2) = 2%nat /\
  exists p : nat -> R,
    (forall i, (i < 2)%nat ->
       Lidar.lookup_prob lidar_100
         (nth i (shoot_rays one_obstacle_grid lidar_100 init_ground_truth_state 2) 0)
         (nth i [100; 3] 0) = Ok (p i)) /\
    importance one_obstacle_grid lidar_100 init_ground_truth_state [100; 3]
    = Ok (prod_upto p 2).
Proof.
  split; [lra |].
  apply (importance_is_product one_obstacle_grid lidar_100
           init_ground_truth_state [100; 3]).
  simpl. lra.
Defined.

Lemma prod_upto_pos (f : nat -> R) (k : nat) :
  (forall i, (i < k)%nat -> 0 < f i) -> 0 < prod_upto f k.
Proof.
  induction k as [| k IH]; intros H; simpl; [lra |].
  apply Rmult_lt_0_compat; [apply IH; intros; apply H; lia | apply H; lia].
Qed.

Lemma importance_ok (g : Grid) (s : LidarSensor) (st : State) (measured : list R) :
  max_range s <> 0 ->
  importance g s st measured =
  Ok (prod_upto
        (fun i => mixture_value s
                    (nth i (shoot_rays g s st (length measured)) 0)
                    (nth i measured 0))
        (length measured)).
Proof.
  intros Hr. unfold importance.
  rewrite importance_loop_ok by (assumption || apply shoot_rays_length).
  f_equal. lra.
Qed.

Lemma importance_pos (g : Grid) (s : LidarSensor) (st : State) (measured : list R) :
  0 < max_range s ->
  exists w, importance g s st measured = Ok w /\ 0 < w.
Proof.
  intros Hr. eexists. split.
  - apply importance_ok. lra.
  - apply prod_upto_pos. intros i _.
    pose proof (mixture_value_lower s
                  (nth i (shoot_rays g s st (length measured)) 0)
                  (nth i measured 0) Hr).
    lra.
Qed.

Lemma importance_weights_pos (g : Grid) (s : LidarSensor) (measured : list R) :
  0 < max_range s ->
  forall samples,
  exists ws,
    importance_weights g s samples measured = Ok ws /\
    length ws = length samples /\
    Forall (fun w => 0 < w) ws.
Proof.
  intros Hr samples.
  induction samples as [| st samples (ws & Hws & Hlen & Hall)].
  - exists []. simpl. auto.
  - destruct (importance_pos g s st measured Hr) as (w & Hw & Hpos).
    exists (w :: ws). cbn [importance_weights].
    rewrite Hw. cbn [bind]. rewrite Hws. cbn [bind length].
    auto.
Qed.

Lemma sum_pos (ws : list R) :
  ws <> [] -> Forall (fun w => 0 < w) ws -> 0 < Np.sum ws.
Proof.
  intros Hne Hall. induction Hall as [| w ws Hw Hall IH]; [contradiction |].
  destruct ws as [| w' ws'].
  - simpl. lra.
  - assert (0 < Np.sum (w' :: ws')) by (apply IH; discriminate).
    change (Np.sum (w :: w' :: ws')) with (w + Np.sum (w' :: ws')). lra.
Qed.

(** C10. For a sensor with [max_range > 0]: every value of [lookup_prob]
    is at least [0.03 * (1 / max_range)], which is positive; [importance]
    returns a strictly positive weight for every state and every list of
    measured distances; and over a non-empty particle set every unnormalized
    weight that [sensor_fusion] forms is positive and so is their sum (in
    exact arithmetic no weight vector is all zero). *)
Theorem importance_strictly_positive (g : Grid) (s : LidarSensor) :
  0 < max_range s ->
  (forall e m, exists p,
      Lidar.lookup_prob s e m = Ok p /\ 0 < 0.03 * (1 / max_range s) <= p) /\
  (forall st measured, exists w, importance g s st measured = Ok w /\ 0 < w) /\
  (forall samples measured, samples <> [] ->
     exists ws,
       importance_weights g s samples measured = Ok ws /\
       length ws = length samples /\
       Forall (fun w => 0 < w) ws /\
       0 < Np.sum ws).
Proof.
  intros Hr. split; [| split].
  - intros e m. exists (mixture_value s e m). split.
    + apply lookup_prob_ok. lra.
    + now apply mixture_value_lower.
  - intros st measured. now apply importance_pos.
  - intros samples measured Hne.
    destruct (importance_weights_pos g s measured Hr samples) as (ws & Hws & Hlen & Hall).
    exists ws. repeat split; try assumption.
    apply sum_pos; [| assumption].
    intros ->. destruct samples; [contradiction | discriminate].
Qed.

Lemma importance_strictly_positive_witness :
  0 < 100 /\
  exists w,
    importance one_obstacle_grid lidar_100 init_ground_truth_state [100; 3] = Ok w /\
    0 < w.
Proof.
  split; [lra |].
  apply (importance_strictly_positive one_obstacle_grid lidar_100).
  simpl. lra.
Defined.

(** ** [sensor_fusion] *)

Lemma float_weights (samples : list State) (measured : list R) :
  samples = [] \/ measured <> [] -> integer_weights samples measured = false.
Proof.
  intros [-> | Hne]; [reflexivity |].
  destruct samples, measured; try reflexivity. contradiction.
Qed.




(** Over the empty particle set the sum of the unnormalized weights is
    zero, and [sensor_fusion] returns the empty weight vector, not an
    error. *)
Lemma sensor_fusion_zero_sum_returns :
  exists ws,
    importance_weights one_obstacle_grid lidar_100 [] [100; 3] = Ok ws /\
    Np.sum ws = 0 /\
    sensor_fusion one_obstacle_grid lidar_100 [] [100; 3] = Ok [] /\
    ~ (exists e, sensor_fusion one_obstacle_grid lidar_100 [] [100; 3] = Raise e).
Proof.
  exists []. repeat split.
  intros [e He]. discriminate He.
Qed.


(** ** [get_distance] and [shoot_rays] *)

Lemma get_distance_loop_hit (g : Grid) (x y dist : R) (loc : R * R)
  (pre : list Cell) (c : Cell) (post : list Cell) :
  Forall (passable g) pre ->
  inbounds g (fst c) (snd c) = true ->
  occupied g c = true ->
  get_distance_loop g x y dist loc (pre ++ c :: post) =
  (Np.linalg_norm x y (IZR (fst c)) (IZR (snd c)), (IZR (fst c), IZR (snd c))).
Proof.
  intros Hpre Hin Hocc.
  induction Hpre as [| c' pre [Hin' Hfree'] _ IH]; cbn [app get_distance_loop].
  - now rewrite Hin, Hocc.
  - now rewrite Hin', Hfree'.
Qed.

Lemma get_distance_loop_leave (g : Grid) (x y dist : R) (loc : R * R)
  (pre : list Cell) (c : Cell) (post : list Cell) :
  Forall (passable g) pre ->
  inbounds g (fst c) (snd c) = false ->
  get_distance_loop g x y dist loc (pre ++ c :: post) = (dist, loc).
Proof.
  intros Hpre Hout.
  induction Hpre as [| c' pre [Hin' Hfree'] _ IH]; cbn [app get_distance_loop].
  - now rewrite Hout.
  - now rewrite Hin', Hfree'.
Qed.

Lemma get_distance_loop_end (g : Grid) (x y dist : R) (loc : R * R)
  (cells : list Cell) :
  Forall (passable g) cells ->
  get_distance_loop g x y dist loc cells = (dist, loc).
Proof.
  intros Hall.
  induction Hall as [| c' pre [Hin' Hfree'] _ IH]; cbn [get_distance_loop].
  - reflexivity.
  - now rewrite Hin', Hfree'.
Qed.


Lemma int_IZR_nonneg (n : Z) (x : R) :
  0 <= IZR n -> IZR n <= x < IZR n + 1 -> Py.int x = n.
Proof.
  intros Hn Hx. unfold Py.int.
  destruct (Rle_dec 0 x) as [_ | Hneg]; [| lra].
  symmetry. apply Int_part_spec. lra.
Qed.

Lemma PI_gt_3 : 3 < PI.
Proof. pose proof PI2_3_2. lra. Qed.

Lemma sqrt2_bounds : 1.414 < sqrt 2 < 1.415.
Proof.
  assert (H0 : 0 <= sqrt 2) by apply sqrt_pos.
  assert (H2 : sqrt 2 * sqrt 2 = 2) by (apply sqrt_sqrt; lra).
  split; nra.
Qed.

Lemma cos_sin_45 : cos (Np.radians 45) = 1 / sqrt 2 /\ sin (Np.radians 45) = 1 / sqrt 2.
Proof.
  unfold Np.radians.
  replace (45 * (PI / 180)) with (PI / 4) by field.
  split; [apply cos_PI4 | apply sin_PI4].
Qed.

Lemma ray_end_45 : 70 <= 100 * (1 / sqrt 2) < 71.
Proof.
  pose proof sqrt2_bounds as [Hlo Hhi].
  assert (Hinv : 1 / sqrt 2 = sqrt 2 / 2).
  { assert (sqrt 2 * sqrt 2 = 2) by (apply sqrt_sqrt; lra). field_simplify_eq; lra. }
  rewrite Hinv. lra.
Qed.


Lemma sqrt_5000_bounds : 70.710 < sqrt 5000 < 70.711.
Proof.
  assert (H0 : 0 <= sqrt 5000) by apply sqrt_pos.
  assert (H2 : sqrt 5000 * sqrt 5000 = 5000) by (apply sqrt_sqrt; lra).
  split; nra.
Qed.

Lemma shoot_rays_nth (g : Grid) (s : LidarSensor) (x y theta : R) (k i : nat) :
  (i < k)%nat ->
  nth i (shoot_rays g s (x, y, theta) k) 0 =
  fst (get_distance g s x y (ray_angle theta k i)).
Proof.
  intros Hi. unfold shoot_rays.
  rewrite (nth_indep _ 0 (fst (get_distance g s x y (ray_angle theta k 0))))
    by now rewrite length_map, length_seq.
  rewrite (map_nth (fun bearing => fst (get_distance g s x y (ray_angle theta k bearing)))).
  now rewrite seq_nth.
Qed.






(** With the exact operations the walk is the one of [get_distance]. *)
Lemma fl_get_distance_exact (g : Grid) (s : LidarSensor) (x y angle : R) :
  Fl.get_distance exact_ops g s x y angle = get_distance g s x y angle.
Proof.
  unfold Fl.get_distance, get_distance. cbn [exact_ops fl_add fl_mul fl_cos fl_sin].
  generalize (Bresenham.bresenham (Py.int x) (Py.int y)
                (Py.int (x + max_range s * cos angle))
                (Py.int (y + max_range s * sin angle))).
  intros cells. induction cells as [| c rest IH]; [reflexivity |].
  cbn [Fl.get_distance_loop get_distance_loop exact_ops fl_norm].
  now rewrite IH.
Qed.

Lemma Rabs_le_inv (a b : R) : Rabs a <= b -> - b <= a <= b.
Proof. unfold Rabs. destruct (Rcase_abs a); lra. Qed.

Lemma Rabs_self_le (a e : R) : 0 <= e -> Rabs (a - a) <= e.
Proof. intros He. rewrite Rminus_diag, Rabs_R0. exact He. Qed.















(** ** [sample_from_prior] *)

Section PriorSampling.

Variables (grid grid_map : Grid) (N : Z) (state : option State).
Variable tape : nat -> PriorDraw.

Lemma accepted_passes_step (i n : nat) :
  accepted_passes grid grid_map state tape i (S n) =
  ((if accepted grid_map (prior_candidate grid state (tape i)) then 1 else 0)
   + accepted_passes grid grid_map state tape (S i) n)%nat.
Proof.
  unfold accepted_passes. cbn [seq filter].
  now destruct (accepted grid_map (prior_candidate grid state (tape i))).
Qed.

Lemma sample_from_prior_loop_step (fuel i : nat) (samples : list State) :
  sample_from_prior_loop grid grid_map N state tape (S fuel) i samples =
  if (Z.of_nat (length samples) <? N)%Z then
    if accepted grid_map (prior_candidate grid state (tape i))
    then sample_from_prior_loop grid grid_map N state tape fuel (S i)
           (samples ++ [prior_candidate grid state (tape i)])
    else sample_from_prior_loop grid grid_map N state tape fuel (S i) samples
  else Some (Ok samples).
Proof. reflexivity. Qed.

Lemma sample_from_prior_loop_returns (n : nat) :
  forall (i : nat) (samples : list State),
    (Z.of_nat (length samples) <= N)%Z ->
    Forall (fun s => accepted grid_map s = true) samples ->
    (N <= Z.of_nat (length samples)
          + Z.of_nat (accepted_passes grid grid_map state tape i n))%Z ->
    exists res,
      sample_from_prior_loop grid grid_map N state tape (S n) i samples
      = Some (Ok res) /\
      Z.of_nat (length res) = N /\
      Forall (fun s => accepted grid_map s = true) res.
Proof.
  induction n as [| n IH]; intros i samples Hle Hall Hge.
  - unfold accepted_passes in Hge. cbn in Hge.
    exists samples. rewrite sample_from_prior_loop_step.
    destruct (Z.ltb_spec (Z.of_nat (length samples)) N); [lia |].
    repeat split; [lia | assumption].
  - rewrite accepted_passes_step in Hge.
    rewrite sample_from_prior_loop_step.
    destruct (Z.ltb_spec (Z.of_nat (length samples)) N) as [Hlt | Hnlt].
    + destruct (accepted grid_map (prior_candidate grid state (tape i))) eqn:Hacc.
      * apply IH.
        -- rewrite length_app. cbn [length]. lia.
        -- apply Forall_app. split; [assumption |]. now constructor.
        -- rewrite length_app. cbn [length]. lia.
      * apply IH; [assumption | assumption | lia].
    + exists samples. repeat split; [lia | assumption].
Qed.

Lemma sample_from_prior_loop_more_fuel (fuel : nat) :
  forall (i : nat) (samples : list State) (r : result (list State)) (extra : nat),
    sample_from_prior_loop grid grid_map N state tape fuel i samples = Some r ->
    sample_from_prior_loop grid grid_map N state tape (fuel + extra) i samples
    = Some r.
Proof.
  induction fuel as [| fuel IH]; intros i samples r extra; [discriminate |].
  cbn [Nat.add]. rewrite !sample_from_prior_loop_step.
  destruct (Z.of_nat (length samples) <? N)%Z; [| auto].
  destruct (accepted grid_map (prior_candidate grid state (tape i))); apply IH.
Qed.

Lemma sample_from_prior_loop_spins :
  (forall x y, valid_location grid_map x y = false) ->
  (0 < N)%Z ->
  forall fuel i,
    sample_from_prior_loop grid grid_map N state tape fuel i [] = None.
Proof.
  intros Hfull HN.
  induction fuel as [| fuel IH]; intros i; [reflexivity |].
  rewrite sample_from_prior_loop_step. cbn [length].
  destruct (Z.ltb_spec (Z.of_nat 0) N) as [_ | Hn]; [| cbn in Hn; lia].
  unfold accepted. rewrite Hfull. apply IH.
Qed.

End PriorSampling.

Lemma full_grid_no_free_cell (x y : Z) : valid_location full_grid x y = false.
Proof.
  unfold valid_location, occupied. cbn [full_grid at_ fst snd Z.eqb negb Pos.eqb].
  apply andb_false_r.
Qed.

Lemma half_grid_free_cell : valid_location half_grid 0 0 = true.
Proof. reflexivity. Qed.

Lemma lucky_pass (i : nat) :
  accepted half_grid (prior_candidate half_grid None (constant_tape 0.25 0.25 i)) = true.
Proof.
  unfold accepted, prior_candidate, uniform.
  cbn [constant_tape u_x u_y fst snd half_grid shape0 shape1].
  rewrite (int_IZR_nonneg 0 (0 + (2 - 0) * 0.25)), (int_IZR_nonneg 0 (0 + (1 - 0) * 0.25))
    by lra.
  reflexivity.
Qed.

Lemma unlucky_pass (i : nat) :
  accepted half_grid (prior_candidate half_grid None (constant_tape 0.75 0.25 i)) = false.
Proof.
  unfold accepted, prior_candidate, uniform.
  cbn [constant_tape u_x u_y fst snd half_grid shape0 shape1].
  rewrite (int_IZR_nonneg 1 (0 + (2 - 0) * 0.75)), (int_IZR_nonneg 0 (0 + (1 - 0) * 0.25))
    by lra.
  reflexivity.
Qed.

(** C6, as amended.  For [0 <= N], [sample_from_prior] returns as soon as
    [N] of its draws have landed on a valid location: if that has happened
    within the first [n] passes of the loop, [n + 1] tests of the loop
    condition (or more) give exactly [N] samples, each of them in bounds and
    not an obstacle.  The function has no test for a map without free cells:
    there, for [N > 0], the loop never ends and nothing is raised. *)
Theorem sample_from_prior_returns_or_spins (grid grid_map : Grid) (N : Z)
  (state : option State) (tape : nat -> PriorDraw) :
  (0 <= N)%Z ->
  (forall n, (N <= Z.of_nat (accepted_passes grid grid_map state tape 0 n))%Z ->
     exists samples,
       (forall fuel, (n < fuel)%nat ->
          sample_from_prior grid grid_map N state tape fuel = Some (Ok samples)) /\
       Z.of_nat (length samples) = N /\
       Forall (fun s => valid_location grid_map (Py.int (fst (fst s)))
                                        (Py.int (snd (fst s))) = true) samples) /\
  ((forall x y, valid_location grid_map x y = false) ->
   (0 < N)%Z ->
   forall fuel, sample_from_prior grid grid_map N state tape fuel = None).
Proof.
  intros HN. split.
  - intros n Hn.
    destruct (sample_from_prior_loop_returns grid grid_map N state tape n 0 [])
      as (res & Hres & Hlen & Hall); [cbn; lia | constructor | cbn; lia |].
    exists res. repeat split; [| exact Hlen | exact Hall].
    intros fuel Hfuel. unfold sample_from_prior.
    replace fuel with (S n + (fuel - S n))%nat by lia.
    now apply sample_from_prior_loop_more_fuel.
  - intros Hfull Hpos fuel. now apply sample_from_prior_loop_spins.
Qed.

Lemma sample_from_prior_returns_or_spins_witness :
  exists samples,
    (forall fuel, (1 < fuel)%nat ->
       sample_from_prior half_grid half_grid 1 None (constant_tape 0.25 0.25) fuel
       = Some (Ok samples)) /\
    Z.of_nat (length samples) = 1%Z /\
    Forall (fun s => valid_location half_grid (Py.int (fst (fst s)))
                                    (Py.int (snd (fst s))) = true) samples.
Proof.
  apply (sample_from_prior_returns_or_spins
           half_grid half_grid 1 None (constant_tape 0.25 0.25)).
  - lia.
  - unfold accepted_passes. cbn [seq filter]. rewrite lucky_pass. cbn. lia.
Defined.

(** C6 as the specification states it does not hold: on a map without a
    free cell the function neither returns nor raises, whatever the fuel. *)
Lemma sample_from_prior_no_free_cell_spins :
  (forall x y, valid_location full_grid x y = false) /\
  forall fuel,
    sample_from_prior full_grid full_grid 1 None (constant_tape 0 0) fuel = None.
Proof.
  split; [exact full_grid_no_free_cell |].
  intros fuel. apply sample_from_prior_loop_spins; [exact full_grid_no_free_cell | lia].
Qed.

(** A free cell does not make the loop end either: the draws have to land
    on it.  On [half_grid] a tape that always draws the obstacle column
    keeps the loop running. *)
Lemma sample_from_prior_unlucky_tape (fuel : nat) :
  valid_location half_grid 0 0 = true /\
  sample_from_prior half_grid half_grid 1 None (constant_tape 0.75 0.25) fuel = None.
Proof.
  split; [reflexivity |].
  unfold sample_from_prior. generalize 0%nat as i.
  induction fuel as [| fuel IH]; intros i; [reflexivity |].
  cbn [sample_from_prior_loop length Z.of_nat Z.ltb Z.compare].
  rewrite unlucky_pass. apply IH.
Qed.

(** ** [particle_filter] *)

Lemma simulate_default_45 (x y : R) :
  simulate_default (x, y, Np.radians 45) (0, 0, 0) =
  (x + 5 / sqrt 2, y + 5 / sqrt 2, Np.radians 45).
Proof.
  unfold simulate_default, simulate, normal. cbn [fst snd].
  destruct cos_sin_45 as [-> ->].
  replace (Np.radians 0) with 0 by (unfold Np.radians; lra).
  rewrite tan_0.
  assert (Hs : sqrt 2 <> 0) by (pose proof sqrt2_bounds; lra).
  f_equal; [f_equal |]; lra.
Qed.

(** C5, the code at the notebook's input.  [particle_filter] returns the
    particle set and the ground-truth state it was given, whatever the
    number of time steps and of rays; for the notebook's initial state and
    5 time steps the ground truth propagated by the motion model (here with
    all noise variates 0) has moved by [25 / sqrt 2] along x, and the state
    returned has not. *)
Theorem particle_filter_returns_its_inputs :
  (forall grid sensor ground_truth_state samples n_timesteps rays,
     particle_filter grid sensor ground_truth_state samples n_timesteps rays
     = (samples, ground_truth_state)) /\
  spec_ground_truth init_ground_truth_state (fun _ => (0, 0, 0)) 0 5
    = (385 + 25 / sqrt 2, 450 + 25 / sqrt 2, Np.radians 45) /\
  (forall grid samples rays,
     snd (particle_filter grid lidar_100 init_ground_truth_state samples 5 rays)
     <> spec_ground_truth init_ground_truth_state (fun _ => (0, 0, 0)) 0 5).
Proof.
  assert (Hs : 0 < sqrt 2) by (pose proof sqrt2_bounds; lra).
  assert (Hgt : spec_ground_truth init_ground_truth_state (fun _ => (0, 0, 0)) 0 5
                = (385 + 25 / sqrt 2, 450 + 25 / sqrt 2, Np.radians 45)).
  { unfold init_ground_truth_state. cbn [spec_ground_truth].
    rewrite !simulate_default_45. f_equal. f_equal; field; lra. }
  split; [reflexivity | split; [exact Hgt |]].
  intros grid samples rays. rewrite Hgt.
  unfold particle_filter, init_ground_truth_state. cbn [snd].
  intros [= Hx _].
  assert (0 < 25 / sqrt 2) by (apply Rdiv_lt_0_compat; lra).
  lra.
Qed.

(** ** The Kalman filter *)

Lemma predict_result_from_globals (self self' : KF) (u u' : ndarray)
  (globals : Namespace) :
  snd (Kalman.predict self u globals) = snd (Kalman.predict self' u' globals).
Proof.
  unfold Kalman.predict.
  destruct (load_global globals "mu_bar"); [| reflexivity].
  destruct (load_global globals "sigma_bar"); reflexivity.
Qed.

Lemma spec_predict_notebook :
  Kalman.spec_predict Kalman.MYKF 0 = ([[1]; [1]], [[0.02; 0.01]; [0.01; 0.03]]).
Proof.
  unfold Kalman.spec_predict, Kalman.MYKF, Kalman.initial_values, Kalman.init,
    Kalman.a, Kalman.b, Kalman.mu_0, Kalman.sigma_0.
  cbn [mu sigma dt q_t].
  unfold Mat.add, Mat.matmul, Mat.transpose, Mat.zip_with, Mat.col, Mat.ncols, Mat.dot.
  cbn [map combine seq hd length nth fold_right fst snd].
  repeat f_equal; lra.
Qed.

(** C1, the code at the notebook's input.  In the notebook, where no cell
    has bound [mu_bar] before the first call, [predict] raises [NameError]
    and stores nothing; the spec's formulas give the mean [[1], [1]] and the
    covariance [[0.02, 0.01], [0.01, 0.03]] there.  Under any namespace what
    [predict] returns is what the namespace binds to [mu_bar] and
    [sigma_bar]: it depends neither on the held belief nor on [u]. *)
Theorem predict_reads_unbound_names :
  Kalman.predict Kalman.MYKF Kalman.u_0 Kalman.notebook_globals
    = (Kalman.MYKF, Raise (NameError "mu_bar")) /\
  Kalman.spec_predict Kalman.MYKF 0 = ([[1]; [1]], [[0.02; 0.01]; [0.01; 0.03]]) /\
  (forall self self' u u' globals,
     snd (Kalman.predict self u globals) = snd (Kalman.predict self' u' globals)) /\
  (forall self u globals,
     snd (Kalman.predict self u globals) =
     match globals "mu_bar"%string, globals "sigma_bar"%string with
     | Some m, Some c => Ok (m, c)
     | Some _, None => Raise (NameError "sigma_bar")
     | None, _ => Raise (NameError "mu_bar")
     end).
Proof.
  split; [reflexivity | split; [exact spec_predict_notebook | split]].
  - exact predict_result_from_globals.
  - intros self u globals. unfold Kalman.predict, load_global.
    destruct (globals "mu_bar"%string) as [m' |]; [| reflexivity].
    destruct (globals "sigma_bar"%string) as [c' |]; reflexivity.
Qed.

(** The property of C8 holds of the spec's formulas: for a predicted
    belief of two components and a regular [S], updating with the
    observation [H mu_bar] leaves the mean at [mu_bar]. *)
Lemma spec_update_matching_observation (self : KF) (v p s11 s12 s21 s22 r : R) :
  mu_bar self = [[v]; [p]] ->
  sigma_bar self = [[s11; s12]; [s21; s22]] ->
  r_t self = [[r]] ->
  s22 + r <> 0 ->
  exists covariance,
    Kalman.spec_update self (Kalman.h self (mu_bar self))
    = Some ([[v]; [p]], covariance).
Proof.
  intros Hmu Hsigma Hr Hs.
  unfold Kalman.spec_update, Kalman.h, Kalman.h_prime. rewrite Hmu, Hsigma, Hr.
  unfold Mat.add, Mat.sub, Mat.matmul, Mat.transpose, Mat.zip_with, Mat.col,
    Mat.ncols, Mat.dot, Mat.identity.
  cbn [map combine seq hd length nth fold_right fst snd Nat.eqb].
  match goal with
  | |- context [Req_dec_T ?s 0] =>
      destruct (Req_dec_T s 0) as [E | _]; [exfalso; apply Hs; lra |]
  end.
  eexists. do 2 f_equal. repeat f_equal; ring.
Qed.

(** C8, the code at the notebook's input.  In the notebook [predict]
    raises [NameError] before [update] is reached.  [update] returns what the
    namespace binds to [mu] and [sigma], whatever the observation and the
    predicted belief; in a namespace that binds all four names, the mean
    after predict and update with the observation [h(mu_bar)] is the global
    [mu] = [[0], [0]] and not [mu_bar] = [[1], [1]]. *)
Theorem predict_then_update_reads_unbound_names :
  predict_then_update Kalman.MYKF Kalman.u_0 Kalman.notebook_globals
    = (Kalman.MYKF, Raise (NameError "mu_bar")) /\
  (forall self z globals,
     snd (Kalman.update self z globals) =
     match globals "mu"%string, globals "sigma"%string with
     | Some m, Some c => Ok (m, c)
     | Some _, None => Raise (NameError "sigma")
     | None, _ => Raise (NameError "mu")
     end) /\
  (let after := predict_then_update Kalman.MYKF Kalman.u_0 bound_globals in
   mu_bar (fst after) = [[1]; [1]] /\
   snd after = Ok ([[0]; [0]], [[0.01; 0]; [0; 0.01]]) /\
   mu (fst after) <> mu_bar (fst after)).
Proof.
  split; [reflexivity | split].
  - intros self z globals. unfold Kalman.update, load_global.
    destruct (globals "mu"%string) as [m' |]; [| reflexivity].
    destruct (globals "sigma"%string) as [c' |]; reflexivity.
  - cbn. repeat split.
    intros [= H]. lra.
Qed.

(** ** [measure] against [lookup_prob] *)

Lemma randint_outcomes_length (low high : Z) :
  length (Np.randint_outcomes low high) = Z.to_nat (high - low).
Proof. unfold Np.randint_outcomes. now rewrite length_map, length_seq. Qed.

Lemma randint_outcomes_In (low high r : Z) :
  In r (Np.randint_outcomes low high) <-> (low <= r < high)%Z.
Proof.
  unfold Np.randint_outcomes. rewrite in_map_iff. split.
  - intros (i & <- & Hi). apply in_seq in Hi. lia.
  - intros Hr. exists (Z.to_nat (r - low)). split; [lia |].
    apply in_seq. lia.
Qed.

Lemma randint_outcomes_NoDup (low high : Z) : NoDup (Np.randint_outcomes low high).
Proof.
  unfold Np.randint_outcomes.
  apply Injective_map_NoDup; [| apply seq_NoDup].
  intros i j Hij. lia.
Qed.

Lemma randint_outcome_mass (n r : Z) :
  (0 <= r <= n)%Z ->
  outcome_mass (Np.randint_outcomes 0 (n + 1)) r = 1 / (IZR n + 1).
Proof.
  intros Hr. unfold outcome_mass.
  rewrite randint_outcomes_length.
  assert (Hc : count_occ Z.eq_dec (Np.randint_outcomes 0 (n + 1)) r = 1%nat).
  { apply NoDup_count_occ'; [apply randint_outcomes_NoDup |].
    apply randint_outcomes_In. lia. }
  rewrite Hc. change (INR 1) with 1.
  rewrite (INR_IZR_INZ (Z.to_nat (n + 1 - 0))), Z2Nat.id by lia.
  replace (n + 1 - 0)%Z with (n + 1)%Z by lia.
  rewrite plus_IZR. reflexivity.
Qed.

Lemma randint_outcomes_below (k low : Z) :
  forall len start,
    length (filter (fun r => (r <=? k)%Z)
                   (map (fun i => (low + Z.of_nat i)%Z) (seq start len))) =
    Z.to_nat (Z.min (low + Z.of_nat (start + len)) (k + 1)
              - Z.min (low + Z.of_nat start) (k + 1)).
Proof.
  induction len as [| len IH]; intros start.
  - rewrite Nat.add_0_r. cbn. lia.
  - cbn [seq map filter].
    destruct (Z.leb_spec (low + Z.of_nat start) k) as [Hle | Hgt];
      cbn [length]; rewrite IH; lia.
Qed.

Lemma random_return_cdf_value (n k : Z) :
  (0 <= k <= n)%Z ->
  random_return_cdf n k = (IZR k + 1) / (IZR n + 1).
Proof.
  intros Hk. unfold random_return_cdf.
  rewrite randint_outcomes_length. unfold Np.randint_outcomes.
  rewrite randint_outcomes_below.
  rewrite !INR_IZR_INZ, !Z2Nat.id by lia.
  replace (Z.min (0 + Z.of_nat (0 + Z.to_nat (n + 1 - 0))) (k + 1)
           - Z.min (0 + Z.of_nat 0) (k + 1))%Z with (k + 1)%Z by lia.
  replace (n + 1 - 0)%Z with (n + 1)%Z by lia.
  now rewrite !plus_IZR.
Qed.

Lemma gaussian_pdf_shift (m e : R) : gaussian_pdf m e 1 = gaussian_pdf (m - e) 0 1.
Proof.
  unfold gaussian_pdf. do 2 f_equal. f_equal. ring.
Qed.

(** C9, as amended.  For a sensor whose range is the positive integer [n]:
    [measure] returns the hit reading [e + z] ([z] standard normal) when
    [p <= 0.95], the random reading when [0.95 < p <= 0.98] and [max_range]
    when [0.98 < p]; the three weights of [lookup_prob] are the lengths
    0.95, 0.03 and 0.02 of those intervals of [p], its Gaussian term is the
    density of [z] at [m - e], and its 0.02 is added exactly at [max_range].
    The random reading is one of the [n + 1] integers [0 .. n], each with
    probability [1 / (n + 1)], which is less than the [1 / n] that
    [lookup_prob] uses for it at every reading; it is at most [k] with
    probability [(k + 1) / (n + 1)], which for [k < n] is more than the
    [k / n] of the uniform density. *)
Theorem measure_mixture_components (self : LidarSensor) (n : Z) :
  max_range self = IZR n ->
  (0 < n)%Z ->
  (forall e p z r,
     (p <= 0.95 -> Lidar.measure self e p z r = e + z) /\
     (0.95 < p <= 0.98 -> Lidar.measure self e p z r = IZR r) /\
     (0.98 < p -> Lidar.measure self e p z r = max_range self)) /\
  (forall e m,
     Lidar.lookup_prob self e m =
     Ok ((0.95 - 0) * gaussian_pdf (m - e) 0 1
         + (0.98 - 0.95) * (1 / IZR n)
         + (if Req_dec_T m (max_range self) then 1 - 0.98 else 0))) /\
  (let outcomes := Np.randint_outcomes 0 (n + 1) in
   length outcomes = Z.to_nat (n + 1) /\
   (forall r, In r outcomes <-> (0 <= r <= n)%Z) /\
   (forall r, (0 <= r <= n)%Z ->
      outcome_mass outcomes r = 1 / (IZR n + 1) /\
      outcome_mass outcomes r < 1 / IZR n) /\
   (forall k, (0 <= k < n)%Z ->
      random_return_cdf n k = (IZR k + 1) / (IZR n + 1) /\
      uniform_density_cdf self (IZR k) < random_return_cdf n k)).
Proof.
  intros Hn Hpos.
  assert (Hn0 : 0 < IZR n) by now apply IZR_lt.
  split; [| split].
  - intros e p z r. unfold Lidar.measure, Lidar._hit_measure,
      Lidar._random_measure, Lidar._failure_measure.
    destruct (Rle_dec p 0.95); destruct (Rle_dec p 0.98); repeat split; intros; lra.
  - intros e m. rewrite lookup_prob_ok by lra.
    unfold mixture_value. rewrite gaussian_pdf_shift, Hn. f_equal.
    destruct (Req_dec_T m (IZR n)); lra.
  - cbn zeta. split; [| split; [| split]].
    + rewrite randint_outcomes_length. f_equal. lia.
    + intros r. rewrite randint_outcomes_In. lia.
    + intros r Hr. rewrite randint_outcome_mass by assumption.
      split; [reflexivity |].
      unfold Rdiv. rewrite !Rmult_1_l.
      apply Rinv_lt_contravar; nra.
    + intros k Hk. rewrite random_return_cdf_value by lia.
      split; [reflexivity |].
      unfold uniform_density_cdf. rewrite Hn.
      assert (Hk0 : 0 <= IZR k) by (apply IZR_le; lia).
      assert (Hkn : IZR k < IZR n) by (apply IZR_lt; lia).
      apply (Rmult_lt_reg_r (IZR n * (IZR n + 1))); [nra |].
      field_simplify; nra.
Qed.

Lemma measure_mixture_components_witness :
  outcome_mass (Np.randint_outcomes 0 (100 + 1)) 50 = 1 / (100 + 1) /\
  outcome_mass (Np.randint_outcomes 0 (100 + 1)) 50 < 1 / 100.
Proof.
  apply (measure_mixture_components lidar_100 100).
  - reflexivity.
  - lia.
  - lia.
Defined.

(** C9 as the specification states it does not hold: for the notebooks'
    sensor of range 100 the random branch of [measure] returns each of its
    101 readings with probability 1/101, and [lookup_prob] scores a random
    return with 1/100;
    a random reading is 0 with probability 1/101, and the uniform density of
    [lookup_prob] gives that event probability 0. *)
Lemma lookup_prob_not_exact_likelihood :
  Lidar.measure lidar_100 70 0.96 0 50 = 50 /\
  In 50%Z (Np.randint_outcomes 0 (100 + 1)) /\
  ~ exact_random_likelihood lidar_100 100 /\
  ~ exact_random_cdf lidar_100 100.
Proof.
  split; [| split; [| split]]; cycle 3.
  { intros H. specialize (H 0%Z ltac:(lia)).
    rewrite random_return_cdf_value in H by lia.
    unfold uniform_density_cdf in H. cbn [max_range lidar_100] in H. lra. }
  - unfold Lidar.measure, Lidar._random_measure.
    destruct (Rle_dec 0.96 0.95); [lra |].
    destruct (Rle_dec 0.96 0.98); [reflexivity | lra].
  - apply randint_outcomes_In. lia.
  - intros H. specialize (H 50%Z).
    rewrite randint_outcome_mass in H by lia.
    unfold random_term in H. cbn [max_range lidar_100] in H.
    assert (In 50%Z (Np.randint_outcomes 0 (100 + 1))) as Hin
      by (apply randint_outcomes_In; lia).
    specialize (H Hin). lra.
Qed.

(** * Further properties of the code *)

(** ** The sensor model *)

Lemma sqrt_2PI_lower : 2.44 < sqrt (2 * PI).
Proof.
  pose proof PI_gt_3 as Hpi.
  assert (H0 : 0 <= sqrt (2 * PI)) by apply sqrt_pos.
  assert (H2 : sqrt (2 * PI) * sqrt (2 * PI) = 2 * PI) by (apply sqrt_sqrt; lra).
  nra.
Qed.

Lemma exp_le_compat (x y : R) : x <= y -> exp x <= exp y.
Proof.
  intros [Hlt | ->]; [left; now apply exp_increasing | right; reflexivity].
Qed.

Lemma gaussian_pdf_closer (e m1 m2 : R) :
  Rabs (m1 - e) <= Rabs (m2 - e) ->
  gaussian_pdf m2 e 1 <= gaussian_pdf m1 e 1.
Proof.
  intros Habs. unfold gaussian_pdf.
  apply Rmult_le_compat_l.
  - left. apply Rinv_0_lt_compat. pose proof sqrt_2PI_pos. lra.
  - apply exp_le_compat.
    apply Rsqr_le_abs_1 in Habs. unfold Rsqr in Habs. lra.
Qed.

Lemma gaussian_pdf_upper (x mean : R) : gaussian_pdf x mean 1 <= / 2.44.
Proof.
  unfold gaussian_pdf.
  pose proof sqrt_2PI_lower as Hs.
  assert (Hexp : exp (- (x - mean) ^ 2 / (2 * 1 ^ 2)) <= 1).
  { assert (H : exp (- (x - mean) ^ 2 / (2 * 1 ^ 2)) <= exp 0).
    { apply exp_le_compat.
      assert (0 <= (x - mean) ^ 2) by (apply pow2_ge_0). lra. }
    now rewrite exp_0 in H. }
  assert (Hinv : / (1 * sqrt (2 * PI)) <= / 2.44).
  { apply Rinv_le_contravar; lra. }
  assert (0 < / (1 * sqrt (2 * PI))) by (apply Rinv_0_lt_compat; lra).
  assert (0 < exp (- (x - mean) ^ 2 / (2 * 1 ^ 2))) by apply exp_pos.
  nra.
Qed.

Lemma mixture_value_upper (self : LidarSensor) (e m : R) :
  1 <= max_range self -> mixture_value self e m <= 0.44.
Proof.
  intros Hr. unfold mixture_value.
  pose proof (gaussian_pdf_upper m e) as Hg.
  assert (Hq : 1 / max_range self <= 1).
  { unfold Rdiv. rewrite Rmult_1_l. rewrite <- Rinv_1.
    apply Rinv_le_contravar; lra. }
  assert (/ 2.44 <= 0.41) by lra.
  destruct (Req_dec_T m (max_range self)); lra.
Qed.

(** X1. For a sensor whose range is not zero and a reading [m2] that is not
    the range itself, a reading [m1] at least as close to the expected
    distance is at least as likely: [lookup_prob(e, m2) <= lookup_prob(e, m1)]
    whenever [|m1 - e| <= |m2 - e|]. *)
Theorem lookup_prob_closer_is_likelier (self : LidarSensor) (e m1 m2 : R) :
  max_range self <> 0 ->
  m2 <> max_range self ->
  Rabs (m1 - e) <= Rabs (m2 - e) ->
  exists p1 p2,
    Lidar.lookup_prob self e m1 = Ok p1 /\
    Lidar.lookup_prob self e m2 = Ok p2 /\
    p2 <= p1.
Proof.
  intros Hr Hm2 Habs.
  exists (mixture_value self e m1), (mixture_value self e m2).
  rewrite !lookup_prob_ok by assumption.
  repeat split. unfold mixture_value.
  pose proof (gaussian_pdf_closer e m1 m2 Habs).
  destruct (Req_dec_T m2 (max_range self)); [contradiction |].
  destruct (Req_dec_T m1 (max_range self)); lra.
Qed.

Lemma lookup_prob_closer_is_likelier_witness :
  exists p1 p2,
    Lidar.lookup_prob lidar_100 70 71 = Ok p1 /\
    Lidar.lookup_prob lidar_100 70 65 = Ok p2 /\
    p2 <= p1.
Proof.
  apply (lookup_prob_closer_is_likelier lidar_100 70 71 65).
  - simpl. lra.
  - simpl. lra.
  - replace (71 - 70) with 1 by lra. replace (65 - 70) with (- (5)) by lra.
    rewrite Rabs_Ropp, !Rabs_pos_eq; lra.
Defined.



(** ** Ray casting *)

Lemma bresenham_loop_head (x0 y0 xx xy yx yy dx dy : Z) (n : nat) (x y D : Z) :
  exists rest,
    Bresenham.loop x0 y0 xx xy yx yy dx dy (S n) x y D =
    ((x0 + x * xx + y * yx)%Z, (y0 + x * xy + y * yy)%Z) :: rest.
Proof.
  cbn [Bresenham.loop]. destruct (0 <=? D)%Z; eexists; reflexivity.
Qed.

Lemma bresenham_starts_at_origin (x0 y0 x1 y1 : Z) :
  exists rest, Bresenham.bresenham x0 y0 x1 y1 = (x0, y0) :: rest.
Proof.
  unfold Bresenham.bresenham.
  destruct (Z.abs (y1 - y0) <? Z.abs (x1 - x0))%Z;
    rewrite Z2Nat.inj_add by lia; rewrite Nat.add_1_r;
    match goal with
    | |- context [Bresenham.loop ?a ?b ?c ?d ?e ?f ?g ?h (S ?n) ?x ?y ?D] =>
        destruct (bresenham_loop_head a b c d e f g h n x y D) as [rest ->]
    end;
    exists rest; f_equal; f_equal; lia.
Qed.

Lemma get_distance_off_map (g : Grid) (s : LidarSensor) (x y angle : R) :
  inbounds g (Py.int x) (Py.int y) = false ->
  get_distance g s x y angle =
  (max_range s, (x + max_range s * cos angle, y + max_range s * sin angle)).
Proof.
  intros Hout. unfold get_distance.
  destruct (bresenham_starts_at_origin (Py.int x) (Py.int y)
              (Py.int (x + max_range s * cos angle))
              (Py.int (y + max_range s * sin angle))) as [rest ->].
  cbn [get_distance_loop fst snd]. now rewrite Hout.
Qed.

Lemma shoot_rays_off_map (g : Grid) (s : LidarSensor) (x y theta : R) (k : nat) :
  inbounds g (Py.int x) (Py.int y) = false ->
  shoot_rays g s (x, y, theta) k = repeat (max_range s) k.
Proof.
  intros Hout. unfold shoot_rays.
  erewrite map_ext; [| intros i; rewrite get_distance_off_map by assumption;
                       cbn [fst]; reflexivity].
  generalize 0%nat as start.
  induction k as [| k IH]; intros start; [reflexivity |].
  cbn [seq map repeat]. now rewrite IH.
Qed.

(** X3. A state whose cell is outside the map sees nothing: for every
    angle [get_distance] returns the sensor's range and the max-range
    endpoint, and [shoot_rays] returns [k] times the range, whatever the map
    holds. *)
Theorem off_map_state_reads_max_range (g : Grid) (s : LidarSensor)
  (x y theta : R) (k : nat) :
  inbounds g (Py.int x) (Py.int y) = false ->
  (forall angle,
     get_distance g s x y angle =
     (max_range s, (x + max_range s * cos angle, y + max_range s * sin angle))) /\
  shoot_rays g s (x, y, theta) k = repeat (max_range s) k.
Proof.
  intros Hout. split.
  - intros angle. now apply get_distance_off_map.
  - now apply shoot_rays_off_map.
Qed.

Lemma int_minus_5 : Py.int (-5) = (-5)%Z.
Proof.
  unfold Py.int. destruct (Rle_dec 0 (-5)) as [H | _]; [lra |].
  replace (- -5) with 5 by lra.
  replace (Int_part 5) with 5%Z by (apply Int_part_spec; lra).
  reflexivity.
Qed.

Lemma off_map_state_reads_max_range_witness :
  shoot_rays one_obstacle_grid lidar_100 (-5, -5, 0) 3 = [100; 100; 100].
Proof.
  apply (off_map_state_reads_max_range one_obstacle_grid lidar_100 (-5) (-5) 0 3).
  rewrite int_minus_5. reflexivity.
Defined.

Lemma get_distance_loop_sound (g : Grid) (x y dist : R) (loc : R * R)
  (cells : list Cell) :
  get_distance_loop g x y dist loc cells = (dist, loc) \/
  exists c, In c cells /\
            inbounds g (fst c) (snd c) = true /\
            occupied g c = true /\
            get_distance_loop g x y dist loc cells =
            (Np.linalg_norm x y (IZR (fst c)) (IZR (snd c)),
             (IZR (fst c), IZR (snd c))).
Proof.
  induction cells as [| c cells IH]; cbn [get_distance_loop]; [now left |].
  destruct (inbounds g (fst c) (snd c)) eqn:Hin; cbn [negb]; [| now left].
  destruct (occupied g c) eqn:Hocc.
  - right. exists c. repeat split; auto. now left.
  - destruct IH as [IH | (c' & Hc' & Hin' & Hocc' & IH)]; [now left |].
    right. exists c'. repeat split; auto. now right.
Qed.

(** X4. [get_distance] reports only obstacles of the map: its result is
    either the sensor's range with the max-range endpoint, or the distance
    from [(x, y)] to a cell of the Bresenham walk that is inside the map and
    occupied, with that cell as location.  On a map with no occupied cell
    inside its bounds every distance is the range. *)
Theorem get_distance_reports_map_obstacles (g : Grid) (s : LidarSensor)
  (x y angle : R) :
  let x2 := x + max_range s * cos angle in
  let y2 := y + max_range s * sin angle in
  (get_distance g s x y angle = (max_range s, (x2, y2)) \/
   exists c,
     In c (Bresenham.bresenham (Py.int x) (Py.int y) (Py.int x2) (Py.int y2)) /\
     inbounds g (fst c) (snd c) = true /\
     at_ g (snd c) (fst c) = 1%Z /\
     get_distance g s x y angle =
     (sqrt ((x - IZR (fst c)) ^ 2 + (y - IZR (snd c)) ^ 2),
      (IZR (fst c), IZR (snd c)))) /\
  ((forall cx cy, inbounds g cx cy = true -> at_ g cy cx <> 1%Z) ->
   fst (get_distance g s x y angle) = max_range s).
Proof.
  intros x2 y2.
  assert (Hsound := get_distance_loop_sound g x y (max_range s) (x2, y2)
            (Bresenham.bresenham (Py.int x) (Py.int y) (Py.int x2) (Py.int y2))).
  assert (Heq : get_distance g s x y angle =
                get_distance_loop g x y (max_range s) (x2, y2)
                  (Bresenham.bresenham (Py.int x) (Py.int y) (Py.int x2) (Py.int y2)))
    by reflexivity.
  rewrite Heq. clear Heq.
  split.
  - destruct Hsound as [H | (c & Hc & Hin & Hocc & H)]; [now left |].
    right. exists c. repeat split; auto.
    + now apply Z.eqb_eq.
    + rewrite H. unfold Np.linalg_norm. do 2 f_equal. ring.
  - intros Hfree.
    destruct Hsound as [H | (c & Hc & Hin & Hocc & H)]; [now rewrite H |].
    apply Z.eqb_eq in Hocc. now apply Hfree in Hin.
Qed.

Lemma get_distance_loop_local (g1 g2 : Grid) (x y dist : R) (loc : R * R) :
  shape0 g1 = shape0 g2 ->
  shape1 g1 = shape1 g2 ->
  (forall cx cy, inbounds g1 cx cy = true -> at_ g1 cy cx = at_ g2 cy cx) ->
  forall cells,
    get_distance_loop g1 x y dist loc cells = get_distance_loop g2 x y dist loc cells.
Proof.
  intros H0 H1 Hat cells.
  induction cells as [| c cells IH]; cbn [get_distance_loop]; [reflexivity |].
  assert (Hin : inbounds g2 (fst c) (snd c) = inbounds g1 (fst c) (snd c))
    by (unfold inbounds; now rewrite H0, H1).
  rewrite Hin.
  destruct (inbounds g1 (fst c) (snd c)) eqn:Hc; cbn [negb]; [| reflexivity].
  unfold occupied. rewrite <- (Hat _ _ Hc). now rewrite IH.
Qed.

(** X5. Ray casting reads the map only inside its bounds: two maps of the
    same shape that agree on every in-bounds cell give the same
    [get_distance], the same [shoot_rays] and the same [importance], whatever
    they hold elsewhere. *)
Theorem ray_casting_reads_inside_only (g1 g2 : Grid) (s : LidarSensor) :
  shape0 g1 = shape0 g2 ->
  shape1 g1 = shape1 g2 ->
  (forall cx cy, inbounds g1 cx cy = true -> at_ g1 cy cx = at_ g2 cy cx) ->
  (forall x y angle, get_distance g1 s x y angle = get_distance g2 s x y angle) /\
  (forall st k, shoot_rays g1 s st k = shoot_rays g2 s st k) /\
  (forall st measured, importance g1 s st measured = importance g2 s st measured).
Proof.
  intros H0 H1 Hat.
  assert (Hd : forall x y angle,
             get_distance g1 s x y angle = get_distance g2 s x y angle).
  { intros x y angle. unfold get_distance. now apply get_distance_loop_local. }
  assert (Hs : forall st k, shoot_rays g1 s st k = shoot_rays g2 s st k).
  { intros [[x y] theta] k. unfold shoot_rays. apply map_ext.
    intros i. now rewrite Hd. }
  repeat split; auto.
  intros st measured. unfold importance. now rewrite Hs.
Qed.

Lemma ray_casting_reads_inside_only_witness :
  importance one_obstacle_grid lidar_100 init_ground_truth_state [100; 3]
  = importance walled_grid lidar_100 init_ground_truth_state [100; 3].
Proof.
  apply (ray_casting_reads_inside_only one_obstacle_grid walled_grid lidar_100).
  - reflexivity.
  - reflexivity.
  - intros cx cy Hin. cbn [walled_grid at_]. now rewrite Hin.
Defined.

Lemma get_distance_reports_map_obstacles_witness :
  fst (get_distance open_grid lidar_100 385 450 (Np.radians 45)) = max_range lidar_100.
Proof.
  apply (get_distance_reports_map_obstacles open_grid lidar_100 385 450 (Np.radians 45)).
  intros cx cy _. cbn [open_grid at_]. discriminate.
Defined.

Lemma Int_part_plus_IZR (r : R) (n : Z) : Int_part (r + IZR n) = (Int_part r + n)%Z.
Proof.
  symmetry. apply Int_part_spec.
  destruct (base_Int_part r) as [Hlo Hhi].
  rewrite plus_IZR. lra.
Qed.

Lemma mod_plus_multiple (a b : R) (n : Z) :
  b <> 0 -> Py.mod_ (a + IZR n * b) b = Py.mod_ a b.
Proof.
  intros Hb. unfold Py.mod_.
  replace ((a + IZR n * b) / b) with (a / b + IZR n) by (field; assumption).
  rewrite Int_part_plus_IZR, plus_IZR. ring.
Qed.

(** X6. The heading counts modulo a full turn (in exact arithmetic): a
    state whose heading is [theta + 2 pi n], [n] an integer, casts the same
    rays as the state of heading [theta], and so gets the same importance
    weight. *)
Theorem heading_full_turns_cast_same_rays (g : Grid) (s : LidarSensor)
  (x y theta : R) (n : Z) :
  (forall k, shoot_rays g s (x, y, theta + IZR n * (2 * PI)) k
             = shoot_rays g s (x, y, theta) k) /\
  (forall measured,
     importance g s (x, y, theta + IZR n * (2 * PI)) measured
     = importance g s (x, y, theta) measured).
Proof.
  assert (Hs : forall k, shoot_rays g s (x, y, theta + IZR n * (2 * PI)) k
                         = shoot_rays g s (x, y, theta) k).
  { intros k. unfold shoot_rays. apply map_ext. intros i.
    unfold ray_angle.
    replace (theta + IZR n * (2 * PI) + Np.radians (INR i * (360 / INR k)))
      with (theta + Np.radians (INR i * (360 / INR k)) + IZR n * (2 * PI)) by ring.
    rewrite mod_plus_multiple; [reflexivity |].
    pose proof PI_RGT_0. lra. }
  split; [exact Hs |].
  intros measured. unfold importance. now rewrite Hs.
Qed.

(** ** Importance weights *)

Lemma prod_upto_le (f g : nat -> R) (k : nat) :
  (forall i, (i < k)%nat -> 0 <= f i <= g i) -> prod_upto f k <= prod_upto g k.
Proof.
  induction k as [| k IH]; intros H; cbn [prod_upto]; [lra |].
  assert (Hk : 0 <= f k <= g k) by (apply H; lia).
  assert (Hp : prod_upto f k <= prod_upto g k) by (apply IH; intros; apply H; lia).
  assert (H0 : 0 <= prod_upto f k).
  { clear IH Hk Hp. induction k as [| k IHk]; cbn [prod_upto]; [lra |].
    apply Rmult_le_pos; [apply IHk; intros; apply H; lia | apply H; lia]. }
  apply Rmult_le_compat; lra.
Qed.

Lemma prod_upto_const (c : R) (k : nat) : prod_upto (fun _ => c) k = c ^ k.
Proof.
  induction k as [| k IH]; cbn [prod_upto pow]; [reflexivity |].
  rewrite IH. ring.
Qed.

(** X7. In exact arithmetic (the floats of the code read as real numbers):
    for a sensor of range at least 1 the weight [importance] gives to a
    state against [k] measured distances lies between
    [(0.03 / max_range)^k] and [0.44^k]; the exact product is never zero,
    and it shrinks at least geometrically with the number of rays.  The
    lower bound is below the smallest binary64 number from about 92 rays on
    at range 100: there the float product of the code can underflow to
    0.0, which the real numbers do not show. *)
Theorem importance_geometric_bounds (g : Grid) (s : LidarSensor) (st : State)
  (measured : list R) :
  1 <= max_range s ->
  exists w,
    importance g s st measured = Ok w /\
    (0.03 * (1 / max_range s)) ^ length measured <= w <= 0.44 ^ length measured.
Proof.
  intros Hr. eexists. split; [apply importance_ok; lra |].
  rewrite <- !prod_upto_const. split; apply prod_upto_le; intros i _.
  - pose proof (mixture_value_lower s
                  (nth i (shoot_rays g s st (length measured)) 0)
                  (nth i measured 0)). lra.
  - pose proof (mixture_value_lower s
                  (nth i (shoot_rays g s st (length measured)) 0)
                  (nth i measured 0)).
    pose proof (mixture_value_upper s
                  (nth i (shoot_rays g s st (length measured)) 0)
                  (nth i measured 0) Hr). lra.
Qed.

Lemma importance_geometric_bounds_witness :
  exists w,
    importance one_obstacle_grid lidar_100 init_ground_truth_state [100; 3] = Ok w /\
    (0.03 * (1 / 100)) ^ 2 <= w <= 0.44 ^ 2.
Proof.
  apply (importance_geometric_bounds one_obstacle_grid lidar_100
           init_ground_truth_state [100; 3]).
  simpl. lra.
Defined.




Lemma mixture_value_peak (s : LidarSensor) (e m : R) :
  mixture_value s e m <= mixture_value s m m.
Proof.
  unfold mixture_value.
  assert (Hg : gaussian_pdf m e 1 <= gaussian_pdf m m 1).
  { rewrite (gaussian_pdf_shift m e), (gaussian_pdf_shift m m).
    pose proof (gaussian_pdf_closer 0 (m - m) (m - e)) as H.
    apply H. rewrite !Rminus_0_r.
    replace (m - m) with 0 by ring. rewrite Rabs_R0. apply Rabs_pos. }
  destruct (Req_dec_T m (max_range s)); lra.
Qed.

(** X9. No state outweighs one whose rays reproduce the measurement: for a
    sensor of positive range, if [shoot_rays] from [st_star] gives exactly the
    measured distances, then the [importance] of every state is at most that
    of [st_star]. *)
Theorem importance_maximal_at_matching_state (g : Grid) (s : LidarSensor)
  (st_star st : State) (measured : list R) :
  0 < max_range s ->
  shoot_rays g s st_star (length measured) = measured ->
  exists w w_star,
    importance g s st measured = Ok w /\
    importance g s st_star measured = Ok w_star /\
    w <= w_star.
Proof.
  intros Hr Hstar. do 2 eexists.
  split; [apply importance_ok; lra | split; [apply importance_ok; lra |]].
  apply prod_upto_le. intros i _. rewrite Hstar. split.
  - pose proof (mixture_value_lower s
                  (nth i (shoot_rays g s st (length measured)) 0)
                  (nth i measured 0) Hr). lra.
  - apply mixture_value_peak.
Qed.

Lemma importance_maximal_at_matching_state_witness :
  exists w w_star,
    importance one_obstacle_grid lidar_100 init_ground_truth_state [100; 100] = Ok w /\
    importance one_obstacle_grid lidar_100 (-5, -5, 0) [100; 100] = Ok w_star /\
    w <= w_star.
Proof.
  apply (importance_maximal_at_matching_state one_obstacle_grid lidar_100
           (-5, -5, 0) init_ground_truth_state [100; 100]).
  - simpl. lra.
  - cbn [length]. rewrite shoot_rays_off_map; [reflexivity |].
    rewrite int_minus_5. reflexivity.
Defined.

(** ** Normalized weights *)

Lemma sum_map_div (ws : list R) (c : R) :
  Np.sum (map (fun w => w / c) ws) = Np.sum ws / c.
Proof.
  unfold Np.sum. induction ws as [| w ws IH]; cbn [map fold_right].
  - unfold Rdiv. ring.
  - rewrite IH. unfold Rdiv. ring.
Qed.

Lemma sum_bounds_entry (ws : list R) :
  Forall (fun w => 0 < w) ws -> Forall (fun w => w <= Np.sum ws) ws.
Proof.
  intros Hall. induction Hall as [| w ws Hw Hall IH]; constructor.
  - change (Np.sum (w :: ws)) with (w + Np.sum ws).
    assert (0 <= Np.sum ws); [| lra].
    clear IH. induction Hall as [| w' ws' Hw' _ IH']; [unfold Np.sum; simpl; lra |].
    change (Np.sum (w' :: ws')) with (w' + Np.sum ws'). lra.
  - change (Np.sum (w :: ws)) with (w + Np.sum ws).
    eapply Forall_impl; [| exact IH]. intros w' Hw'. cbn beta in Hw'. lra.
Qed.

Lemma importance_weights_nth (g : Grid) (s : LidarSensor) (measured : list R)
  (samples : list State) (ws : list R) :
  importance_weights g s samples measured = Ok ws ->
  forall i d, (i < length samples)%nat ->
    importance g s (nth i samples d) measured = Ok (nth i ws 0).
Proof.
  revert ws. induction samples as [| st samples IH]; intros ws Hws i d Hi.
  - cbn [length] in Hi. lia.
  - cbn [importance_weights] in Hws.
    destruct (importance g s st measured) as [w | e] eqn:Hw; [| discriminate].
    cbn [bind] in Hws.
    destruct (importance_weights g s samples measured) as [ws' | e] eqn:Hws';
      [| discriminate].
    cbn [bind] in Hws. injection Hws as <-.
    destruct i as [| i]; cbn [nth].
    + exact Hw.
    + apply IH; [reflexivity |]. cbn [length] in Hi. lia.
Qed.

(** X10. In exact arithmetic (the floats of the code read as real
    numbers): for a sensor of positive range, at least one particle and at
    least one measured distance, [sensor_fusion] returns one finite weight
    per particle, in the order of the particles: entry [i] is the
    importance of particle [i] divided by the sum of the importances of all
    particles; each entry lies in (0, 1], and the entries sum to 1.  (In
    binary64 the importances can underflow to 0.0 when there are many rays;
    the real numbers do not show that.) *)
Theorem sensor_fusion_normalized (g : Grid) (s : LidarSensor)
  (samples : list State) (measured : list R) :
  0 < max_range s ->
  samples <> [] ->
  measured <> [] ->
  exists ws qs,
    importance_weights g s samples measured = Ok ws /\
    qs = map (fun w => w / Np.sum ws) ws /\
    sensor_fusion g s samples measured = Ok (map Np.finite qs) /\
    length ws = length samples /\
    length qs = length samples /\
    (forall i d, (i < length samples)%nat ->
       importance g s (nth i samples d) measured = Ok (nth i ws 0) /\
       nth i qs 0 = nth i ws 0 / Np.sum ws /\
       0 < nth i qs 0 <= 1) /\
    Forall (fun q => 0 < q <= 1) qs /\
    Np.sum qs = 1.
Proof.
  intros Hr Hs Hm.
  destruct (importance_weights_pos g s measured Hr samples) as (ws & Hws & Hlen & Hall).
  assert (Hsum : 0 < Np.sum ws).
  { apply sum_pos; [| assumption]. intros ->. destruct samples; [contradiction | discriminate]. }
  assert (Hqs : Forall (fun q => 0 < q <= 1) (map (fun w => w / Np.sum ws) ws)).
  { apply Forall_map.
    pose proof (sum_bounds_entry ws Hall) as Hle.
    rewrite Forall_forall in *. intros w Hw.
    specialize (Hall w Hw). specialize (Hle w Hw). cbn beta in *.
    split.
    + now apply Rdiv_lt_0_compat.
    + apply (Rmult_le_reg_r (Np.sum ws)); [assumption |].
      unfold Rdiv. rewrite Rmult_assoc, Rinv_l by lra. lra. }
  exists ws, (map (fun w => w / Np.sum ws) ws).
  split; [exact Hws | split; [reflexivity |]].
  split; [| split; [exact Hlen | split; [| split; [| split]]]].
  - unfold sensor_fusion. rewrite Hws. cbn [bind].
    rewrite float_weights by (now right).
    f_equal. rewrite map_map. apply map_ext. intros w. unfold Np.true_divide.
    destruct (Req_dec_T (Np.sum ws) 0); [lra | reflexivity].
  - now rewrite length_map.
  - intros i d Hi.
    assert (Hnth : nth i (map (fun w => w / Np.sum ws) ws) 0 = nth i ws 0 / Np.sum ws).
    { rewrite (nth_indep _ 0 (0 / Np.sum ws)) by (rewrite length_map; lia).
      apply (map_nth (fun w => w / Np.sum ws)). }
    split; [now apply importance_weights_nth | split; [exact Hnth |]].
    rewrite Forall_forall in Hqs. apply Hqs. apply nth_In.
    rewrite length_map. lia.
  - exact Hqs.
  - rewrite sum_map_div. field. lra.
Qed.

Lemma sensor_fusion_normalized_witness :
  exists ws qs,
    importance_weights one_obstacle_grid lidar_100
      [(400, 440, Np.radians 45); (820, 135, Np.radians 45)] [100; 3] = Ok ws /\
    qs = map (fun w => w / Np.sum ws) ws /\
    sensor_fusion one_obstacle_grid lidar_100
      [(400, 440, Np.radians 45); (820, 135, Np.radians 45)] [100; 3]
    = Ok (map Np.finite qs) /\
    length ws = 2%nat /\
    length qs = 2%nat /\
    (forall i d, (i < 2)%nat ->
       importance one_obstacle_grid lidar_100
         (nth i [(400, 440, Np.radians 45); (820, 135, Np.radians 45)] d) [100; 3]
       = Ok (nth i ws 0) /\
       nth i qs 0 = nth i ws 0 / Np.sum ws /\
       0 < nth i qs 0 <= 1) /\
    Forall (fun q => 0 < q <= 1) qs /\
    Np.sum qs = 1.
Proof.
  apply (sensor_fusion_normalized one_obstacle_grid lidar_100
           [(400, 440, Np.radians 45); (820, 135, Np.radians 45)] [100; 3]).
  - simpl. lra.
  - discriminate.
  - discriminate.
Defined.

(** ** Prior sampling *)

Section PriorSamplingOrder.

Variables (grid grid_map : Grid) (N : Z) (state : option State).
Variable tape : nat -> PriorDraw.

Lemma accepted_candidates_snoc (i : nat) :
  filter (accepted grid_map)
         (map (fun j => prior_candidate grid state (tape j)) (seq 0 (S i))) =
  filter (accepted grid_map)
         (map (fun j => prior_candidate grid state (tape j)) (seq 0 i))
  ++ (if accepted grid_map (prior_candidate grid state (tape i))
      then [prior_candidate grid state (tape i)] else []).
Proof.
  rewrite seq_S, map_app, filter_app. cbn [map filter Nat.add].
  now destruct (accepted grid_map (prior_candidate grid state (tape i))).
Qed.

Lemma accepted_candidates_prefix (i n : nat) :
  exists more,
    filter (accepted grid_map)
           (map (fun j => prior_candidate grid state (tape j)) (seq 0 (i + n))) =
    filter (accepted grid_map)
           (map (fun j => prior_candidate grid state (tape j)) (seq 0 i))
    ++ more.
Proof.
  rewrite seq_app, map_app, filter_app. eexists. reflexivity.
Qed.

Lemma sample_from_prior_loop_order (fuel : nat) :
  forall (i : nat) (samples res : list State),
    samples = filter (accepted grid_map)
                (map (fun j => prior_candidate grid state (tape j)) (seq 0 i)) ->
    (Z.of_nat (length samples) <= Z.max 0 N)%Z ->
    sample_from_prior_loop grid grid_map N state tape fuel i samples = Some (Ok res) ->
    exists j,
      (i <= j < i + fuel)%nat /\
      res = filter (accepted grid_map)
              (map (fun k => prior_candidate grid state (tape k)) (seq 0 j)) /\
      length res = Z.to_nat N.
Proof.
  induction fuel as [| fuel IH]; intros i samples res Hacc Hlen Hloop;
    [discriminate |].
  rewrite sample_from_prior_loop_step in Hloop.
  destruct (Z.ltb_spec (Z.of_nat (length samples)) N) as [Hlt | Hge].
  - pose proof (accepted_candidates_snoc i) as Hsnoc.
    destruct (accepted grid_map (prior_candidate grid state (tape i))).
    + apply IH in Hloop.
      * destruct Hloop as (j & Hj & Hres & Hn). exists j. repeat split; auto; lia.
      * now rewrite Hsnoc, <- Hacc.
      * rewrite length_app. cbn [length]. lia.
    + apply IH in Hloop.
      * destruct Hloop as (j & Hj & Hres & Hn). exists j. repeat split; auto; lia.
      * now rewrite Hsnoc, app_nil_r.
      * assumption.
  - injection Hloop as <-. exists i. repeat split; auto; lia.
Qed.

End PriorSamplingOrder.

(** X11. What [sample_from_prior] returns is the first [N] accepted
    candidates in the order they were drawn: if it returns within [fuel]
    tests of the loop condition, the samples are the first [N] of those
    among the candidates of the first [fuel] passes that fall on a valid
    location (none for [N <= 0]). *)
Theorem sample_from_prior_first_accepted (grid grid_map : Grid) (N : Z)
  (state : option State) (tape : nat -> PriorDraw) (fuel : nat)
  (samples : list State) :
  sample_from_prior grid grid_map N state tape fuel = Some (Ok samples) ->
  samples =
  firstn (Z.to_nat N)
    (filter (fun s => valid_location grid_map (Py.int (fst (fst s)))
                                     (Py.int (snd (fst s))))
       (map (fun i => prior_candidate grid state (tape i)) (seq 0 fuel))).
Proof.
  intros Hret. unfold sample_from_prior in Hret.
  apply sample_from_prior_loop_order in Hret; [| reflexivity | cbn; lia].
  destruct Hret as (j & Hj & Hres & Hlen).
  destruct (accepted_candidates_prefix grid grid_map state tape j (fuel - j))
    as [more Hmore].
  replace (j + (fuel - j))%nat with fuel in Hmore by lia.
  assert (Hfilter :
            filter (fun s : State =>
                      valid_location grid_map (Py.int (fst (fst s)))
                                     (Py.int (snd (fst s))))
              (map (fun i => prior_candidate grid state (tape i)) (seq 0 fuel))
            = samples ++ more) by (rewrite Hres; exact Hmore).
  transitivity (firstn (Z.to_nat N) (samples ++ more));
    [| apply f_equal; symmetry; exact Hfilter].
  rewrite <- Hlen.
  rewrite firstn_app, Nat.sub_diag, firstn_all. cbn [firstn]. now rewrite app_nil_r.
Qed.

Lemma alternating_pass (i : nat) :
  accepted half_grid (prior_candidate half_grid None (alternating_tape i))
  = negb (Nat.even i).
Proof.
  unfold alternating_tape. destruct (Nat.even i).
  - apply (unlucky_pass 0).
  - apply (lucky_pass 0).
Qed.

Lemma sample_from_prior_first_accepted_witness :
  [prior_candidate half_grid None (alternating_tape 1)] =
  firstn (Z.to_nat 1)
    (filter (fun s => valid_location half_grid (Py.int (fst (fst s)))
                                     (Py.int (snd (fst s))))
       (map (fun i => prior_candidate half_grid None (alternating_tape i)) (seq 0 3))).
Proof.
  apply (sample_from_prior_first_accepted half_grid half_grid 1 None
           alternating_tape 3).
  unfold sample_from_prior.
  rewrite !sample_from_prior_loop_step. cbn [length Z.of_nat Z.ltb Z.compare].
  rewrite (alternating_pass 0), (alternating_pass 1). reflexivity.
Defined.

Section PriorSamplingSeed.

Variables (grid grid_map : Grid) (N : Z) (tape : nat -> PriorDraw).
Variables (state1 state2 : option State).

Lemma prior_candidate_position (d : PriorDraw) :
  fst (prior_candidate grid state1 d) = fst (prior_candidate grid state2 d).
Proof. reflexivity. Qed.

Lemma sample_from_prior_loop_positions (fuel : nat) :
  forall (i : nat) (samples1 samples2 : list State),
    map fst samples1 = map fst samples2 ->
    match sample_from_prior_loop grid grid_map N state1 tape fuel i samples1,
          sample_from_prior_loop grid grid_map N state2 tape fuel i samples2 with
    | None, None => True
    | Some (Ok res1), Some (Ok res2) => map fst res1 = map fst res2
    | _, _ => False
    end.
Proof.
  induction fuel as [| fuel IH]; intros i samples1 samples2 Hpos; [exact I |].
  rewrite !sample_from_prior_loop_step.
  assert (Hlen : length samples1 = length samples2).
  { pose proof (f_equal (@length _) Hpos) as H. now rewrite !length_map in H. }
  rewrite Hlen.
  destruct (Z.of_nat (length samples2) <? N)%Z; [| exact Hpos].
  assert (Hacc : accepted grid_map (prior_candidate grid state1 (tape i))
                 = accepted grid_map (prior_candidate grid state2 (tape i)))
    by reflexivity.
  rewrite Hacc.
  destruct (accepted grid_map (prior_candidate grid state2 (tape i))).
  - apply IH. rewrite !map_app. f_equal. exact Hpos.
  - now apply IH.
Qed.

End PriorSamplingSeed.

(** X12. The seed state of [sample_from_prior] seeds the heading only: on
    the same draws, two calls that differ in the [state] argument run
    equally long and return samples with the same positions [(x, y)]; with a
    state given, every returned heading is the state's heading plus
    [radians(0.5)] times a drawn variate. *)
Theorem sample_from_prior_seeds_heading_only (grid grid_map : Grid) (N : Z)
  (tape : nat -> PriorDraw) (state1 state2 : option State) (fuel : nat) :
  match sample_from_prior grid grid_map N state1 tape fuel,
        sample_from_prior grid grid_map N state2 tape fuel with
  | None, None => True
  | Some (Ok res1), Some (Ok res2) => map fst res1 = map fst res2
  | _, _ => False
  end /\
  (forall st samples,
     sample_from_prior grid grid_map N (Some st) tape fuel = Some (Ok samples) ->
     Forall (fun s => exists i, snd s = snd st + Np.radians 0.5 * v_theta (tape i))
            samples).
Proof.
  split.
  - now apply sample_from_prior_loop_positions.
  - intros st samples Hret. unfold sample_from_prior in Hret.
    apply sample_from_prior_loop_order in Hret; [| reflexivity | cbn; lia].
    destruct Hret as (j & _ & -> & _).
    apply Forall_forall. intros s Hs.
    apply filter_In in Hs as [Hs _]. apply in_map_iff in Hs as (i & <- & _).
    exists i. reflexivity.
Qed.

Lemma sample_from_prior_seeds_heading_only_witness :
  Forall (fun s => exists i,
            snd s = Np.radians 45 + Np.radians 0.5 * v_theta (alternating_tape i))
         [prior_candidate half_grid (Some init_ground_truth_state) (alternating_tape 1)].
Proof.
  apply (proj2 (sample_from_prior_seeds_heading_only half_grid half_grid 1
                  alternating_tape None None 3) init_ground_truth_state).
  unfold sample_from_prior.
  rewrite !sample_from_prior_loop_step. cbn [length Z.of_nat Z.ltb Z.compare].
  assert (H0 : accepted half_grid
                 (prior_candidate half_grid (Some init_ground_truth_state)
                    (alternating_tape 0)) = false) by (apply (alternating_pass 0)).
  assert (H1 : accepted half_grid
                 (prior_candidate half_grid (Some init_ground_truth_state)
                    (alternating_tape 1)) = true) by (apply (alternating_pass 1)).
  rewrite H0, H1. reflexivity.
Defined.

(** ** The motion model *)




(** ** The matrices of [KF] *)

(** Splits an equation between two arrays written out entry by entry into
    the equations between their entries. *)
Ltac entrywise :=
  repeat match goal with
         | |- _ :: _ = _ :: _ => apply f_equal2
         | |- @nil _ = @nil _ => reflexivity
         end.

Ltac mat_compute :=
  unfold Mat.add, Mat.sub, Mat.matmul, Mat.transpose, Mat.zip_with, Mat.col,
    Mat.ncols, Mat.dot, Mat.identity;
  cbn [map combine seq hd length nth fold_right fst snd Nat.eqb].

(** X15. The transition matrices of [KF] compose by adding their time
    steps: [a] for [dt1] times [a] for [dt2] is [a] for [dt1 + dt2], and
    [a] for a zero time step is the identity. *)
Theorem transition_matrices_add_time_steps (sensor_sigma velocity_sigma
  position_sigma dt1 dt2 : R) :
  Mat.matmul (Kalman.a (Kalman.init sensor_sigma velocity_sigma position_sigma dt1))
             (Kalman.a (Kalman.init sensor_sigma velocity_sigma position_sigma dt2))
  = Kalman.a (Kalman.init sensor_sigma velocity_sigma position_sigma (dt1 + dt2)) /\
  Kalman.a (Kalman.init sensor_sigma velocity_sigma position_sigma 0) = Mat.identity 2.
Proof.
  split.
  - unfold Kalman.a, Kalman.init. cbn [dt]. mat_compute.
    entrywise; ring.
  - reflexivity.
Qed.

(** X16. What [h] observes after the motion model has been applied is the
    old position plus [dt] times the old velocity: for a state
    [[v], [z]] and a scalar control [u], [h(a [[v],[z]] + b [[u]])] is
    [[z + dt v]], which does not depend on [u]. *)
Theorem observed_position_after_transition (self : KF) (v z u : R) :
  Kalman.h self
    (Mat.add (Mat.matmul (Kalman.a self) [[v]; [z]])
             (Mat.matmul (Kalman.b self) [[u]]))
  = [[z + dt self * v]].
Proof.
  unfold Kalman.h, Kalman.a, Kalman.b. mat_compute.
  do 2 f_equal. ring.
Qed.

(** X17. For uncertainties of magnitude at most 1e154, negative ones
    included, the noise covariances [KF.__init__] builds are positive
    semidefinite: the entries are squares of at most 1e308, inside the
    binary64 range, [q_t] equals its transpose, its quadratic form
    [x^T q_t x] is never negative, and the single entry of [r_t] is never
    negative.  (Beyond about 1.3e154 [** 2] on a Python float raises
    OverflowError, which [Kalman.init] does not model; the quadratic form
    is the exact one, the floats read as real numbers.) *)
Theorem init_covariances_positive_semidefinite (sensor_sigma velocity_sigma
  position_sigma dt0 : R) :
  Rabs sensor_sigma <= 1e154 ->
  Rabs velocity_sigma <= 1e154 ->
  Rabs position_sigma <= 1e154 ->
  let self := Kalman.init sensor_sigma velocity_sigma position_sigma dt0 in
  Mat.transpose (q_t self) = q_t self /\
  (exists qv qz, q_t self = [[qv; 0]; [0; qz]] /\ 0 <= qv <= 1e308 /\ 0 <= qz <= 1e308) /\
  (forall x1 x2, exists q,
     Mat.matmul (Mat.matmul [[x1; x2]] (q_t self)) [[x1]; [x2]] = [[q]] /\ 0 <= q) /\
  (exists r, r_t self = [[r]] /\ 0 <= r <= 1e308).
Proof.
  intros Hs Hv Hp. cbn zeta. unfold Kalman.init. cbn [q_t r_t].
  apply Rabs_le_inv in Hs, Hv, Hp.
  split; [| split; [| split]].
  - reflexivity.
  - eexists _, _. split; [reflexivity |].
    split; (split; [apply pow2_ge_0 | nra]).
  - intros x1 x2. eexists. split.
    + mat_compute. reflexivity.
    + assert (0 <= (x1 * velocity_sigma) ^ 2) by apply pow2_ge_0.
      assert (0 <= (x2 * position_sigma) ^ 2) by apply pow2_ge_0.
      nra.
  - eexists. split; [reflexivity |]. split; [apply pow2_ge_0 | nra].
Qed.

Lemma init_covariances_positive_semidefinite_witness :
  let self := Kalman.init 0.1 (-0.1) 0.3 0.002 in
  Mat.transpose (q_t self) = q_t self /\
  (exists qv qz, q_t self = [[qv; 0]; [0; qz]] /\ 0 <= qv <= 1e308 /\ 0 <= qz <= 1e308) /\
  (forall x1 x2, exists q,
     Mat.matmul (Mat.matmul [[x1; x2]] (q_t self)) [[x1]; [x2]] = [[q]] /\ 0 <= q) /\
  (exists r, r_t self = [[r]] /\ 0 <= r <= 1e308).
Proof.
  apply (init_covariances_positive_semidefinite 0.1 (-0.1) 0.3 0.002);
    apply Rabs_le; lra.
Defined.

(** ** Exponential averaging of the altitude *)

(** With the exact operations [Fl.estimate] is [AltitudeIMU.estimate]. *)
Lemma fl_estimate_exact (self : AltitudeIMU.IMU) (z_t : R) :
  Fl.estimate exact_ops self z_t = AltitudeIMU.estimate self z_t.
Proof. reflexivity. Qed.

(** In binary64 the estimate can leave the interval between the previous
    estimate and the measurement by a rounding error: [IMU(0.1, 0.2)] fed
    the measurement 0.1 returns a float above 0.1. *)
Lemma estimate_rounds_above_inputs :
  PrimFloat.ltb F64.tenth (F64.estimate F64.tenth F64.fifth F64.tenth) = true.
Proof. vm_compute. reflexivity. Qed.

(** X18. For [0 <= alpha <= 1] the estimate that [IMU.estimate] returns
    and stores lies between the previous estimate and the measurement up
    to the rounding of its four float operations: when the subtraction, the
    two products and the sum are each within [eps] of the exact result, the
    estimate is within [(3 + |z_t|) * eps] of that interval, and [alpha] is
    kept.  Where the operations are exact ([eps = 0]) the estimate is
    [(1 - alpha) * z_t + alpha * z_hat] and inside the interval; it is the
    measurement for [alpha = 0] and the previous estimate for
    [alpha = 1]. *)
Theorem estimate_between_estimate_and_measurement (ops : FloatOps)
  (self : AltitudeIMU.IMU) (z_t eps : R) :
  let alpha := AltitudeIMU.alpha self in
  let z_hat := AltitudeIMU.z_hat self in
  let s := fl_sub ops 1 alpha in
  let p1 := fl_mul ops s z_t in
  let p2 := fl_mul ops alpha z_hat in
  0 <= alpha <= 1 ->
  Rabs (s - (1 - alpha)) <= eps ->
  Rabs (p1 - s * z_t) <= eps ->
  Rabs (p2 - alpha * z_hat) <= eps ->
  Rabs (fl_add ops p1 p2 - (p1 + p2)) <= eps ->
  let '(self', returned) := Fl.estimate ops self z_t in
  AltitudeIMU.z_hat self' = returned /\
  AltitudeIMU.alpha self' = alpha /\
  Rmin z_hat z_t - (3 + Rabs z_t) * eps <= returned
    <= Rmax z_hat z_t + (3 + Rabs z_t) * eps /\
  (eps = 0 ->
   returned = (1 - alpha) * z_t + alpha * z_hat /\
   Rmin z_hat z_t <= returned <= Rmax z_hat z_t /\
   (alpha = 0 -> returned = z_t) /\
   (alpha = 1 -> returned = z_hat)).
Proof.
  intros alpha z_hat s p1 p2 Ha Hs H1 H2 Hadd.
  unfold Fl.estimate. fold alpha z_hat s p1 p2.
  cbn [AltitudeIMU.init AltitudeIMU.z_hat AltitudeIMU.alpha].
  set (r := fl_add ops p1 p2) in *.
  apply Rabs_le_inv in Hs, H1, H2, Hadd.
  assert (Heps : 0 <= eps) by lra.
  assert (Hz : Rabs (s * z_t - (1 - alpha) * z_t) <= Rabs z_t * eps).
  { replace (s * z_t - (1 - alpha) * z_t) with ((s - (1 - alpha)) * z_t) by ring.
    rewrite Rabs_mult, Rmult_comm.
    apply Rmult_le_compat_l; [apply Rabs_pos | apply Rabs_le; lra]. }
  apply Rabs_le_inv in Hz.
  assert (Hexact : Rmin z_hat z_t <= (1 - alpha) * z_t + alpha * z_hat
                   <= Rmax z_hat z_t).
  { unfold Rmin, Rmax. destruct (Rle_dec z_hat z_t); split; nra. }
  assert (Herr : - ((3 + Rabs z_t) * eps)
                 <= r - ((1 - alpha) * z_t + alpha * z_hat)
                 <= (3 + Rabs z_t) * eps) by lra.
  split; [reflexivity | split; [reflexivity | split; [lra |]]].
  intros ->.
  assert (Hr : r = (1 - alpha) * z_t + alpha * z_hat) by lra.
  rewrite Hr. split; [reflexivity | split; [exact Hexact | split]].
  - intros ->. lra.
  - intros ->. lra.
Qed.

Lemma estimate_between_estimate_and_measurement_witness :
  let '(self', returned) := Fl.estimate exact_ops (AltitudeIMU.init 0 0.9) (-1) in
  AltitudeIMU.z_hat self' = returned /\
  AltitudeIMU.alpha self' = 0.9 /\
  Rmin 0 (-1) - (3 + Rabs (-1)) * 0 <= returned <= Rmax 0 (-1) + (3 + Rabs (-1)) * 0 /\
  (0 = 0 ->
   returned = (1 - 0.9) * (-1) + 0.9 * 0 /\
   Rmin 0 (-1) <= returned <= Rmax 0 (-1) /\
   (0.9 = 0 -> returned = -1) /\
   (0.9 = 1 -> returned = 0)).
Proof.
  apply (estimate_between_estimate_and_measurement exact_ops
           (AltitudeIMU.init 0 0.9) (-1) 0);
    cbn [exact_ops fl_sub fl_mul fl_add AltitudeIMU.init AltitudeIMU.alpha
         AltitudeIMU.z_hat];
    try (apply Rabs_self_le; lra); lra.
Defined.

Lemma estimate_each_alpha (self : AltitudeIMU.IMU) (zs : list R) :
  AltitudeIMU.alpha (AltitudeIMU.estimate_each self zs) = AltitudeIMU.alpha self.
Proof.
  revert self. induction zs as [| z zs IH]; intros self; [reflexivity |].
  cbn [AltitudeIMU.estimate_each]. now rewrite IH.
Qed.

(** X19. In exact arithmetic (the floats of the code read as real
    numbers, every call of [estimate] without rounding): fed the same
    measurement [z] again and again, the estimate closes in on it
    geometrically; after [n] calls of [estimate] the stored estimate
    differs from [z] by [alpha^n] times the initial difference. *)
Theorem estimate_converges_geometrically (self : AltitudeIMU.IMU) (z : R) (n : nat) :
  AltitudeIMU.z_hat (AltitudeIMU.estimate_each self (repeat z n)) - z =
  AltitudeIMU.alpha self ^ n * (AltitudeIMU.z_hat self - z).
Proof.
  revert self. induction n as [| n IH]; intros self.
  - cbn [repeat AltitudeIMU.estimate_each pow]. ring.
  - cbn [repeat AltitudeIMU.estimate_each]. rewrite IH.
    unfold AltitudeIMU.estimate. cbn [fst AltitudeIMU.z_hat AltitudeIMU.alpha pow].
    ring.
Qed.

(** ** The rotation matrix of the calibration notebook *)




